(** * Detective agency manager: the request handlers of [main.py]

    A shallow embedding of the Flask application: the two tables, the
    session cookie, the SQLAlchemy unit of work (staged writes that only
    [db.session.commit()] stores), Python exceptions, and the thirteen view
    functions with their decorators. *)

From Stdlib Require Import List String Ascii ZArith Bool Arith Lia.
Import ListNotations.
Local Open Scope string_scope.
Local Open Scope list_scope.

Set Implicit Arguments.

(** ** Module-level constants *)

(** Role variables. *)
Definition GUEST_ROLE : Z := 1.
Definition DETECTIVE_ROLE : Z := 2.
Definition BOSS_ROLE : Z := 3.

(** Errors. *)
Definition SAME_EMAIL_ERROR : string :=
  "There's already an account linked to this e-mail".

(** Values read from the environment with [os.getenv]: [None] when unset. *)
Class Settings := {
  DOMAIN : option string;
  EMAIL_ACCOUNT : option string
}.

(** ** The two models *)

(** [class User]: column [id] is the integer primary key; [name],
    [password], [email] and [approved] are declared [nullable=False]. A
    Python attribute can still hold [None] until the row is flushed, so the
    string attributes are optional here and the constraint is checked when
    the row is written. *)
Record User := mkUser {
  u_id : nat;
  u_name : option string;
  u_last_name : option string;
  u_password : string;
  u_email : option string;
  u_role : option Z;
  u_detective_id : option string;
  u_approved : bool
}.

(** [class Case]: [uid] is a nullable foreign key to [users.id]; [title] and
    [content] are [nullable=False]. *)
Record Case := mkCase {
  c_id : nat;
  c_uid : option nat;
  c_title : option string;
  c_description : option string;
  c_content : option string
}.

(** The database: both tables, rows in rowid order. *)
Record DB := mkDB {
  users : list User;
  cases : list Case
}.

(** ** Python values *)

Definition opt_eqb {A} (eqb : A -> A -> bool) (a b : option A) : bool :=
  match a, b with
  | Some x, Some y => eqb x y
  | None, None => true
  | _, _ => false
  end.

(** [str(x)] inside an f-string. *)
Definition py_str (o : option string) : string :=
  match o with Some s => s | None => "None" end.

(** [role == K] and [role != K] on a nullable integer. *)
Definition role_eq (r : option Z) (k : Z) : bool :=
  match r with Some z => Z.eqb z k | None => false end.

(** [role in [K1, K2, ...]]. *)
Definition role_in (r : option Z) (ks : list Z) : bool :=
  existsb (role_eq r) ks.

(** [request.form]: the submitted fields; [form.get(key)] is [None] for a
    missing field. *)
Definition Form := list (string * string).

Fixpoint form_get (form : Form) (key : string) : option string :=
  match form with
  | [] => None
  | (k, v) :: rest => if String.eqb k key then Some v else form_get rest key
  end.

(** ** Queries *)

(** [Model.query.filter_by(...).first()]. *)
Definition first {A} (rows : list A) : option A :=
  match rows with [] => None | r :: _ => Some r end.

Definition users_by_id (db : DB) (uid : nat) : list User :=
  filter (fun u => Nat.eqb (u_id u) uid) (users db).

Definition users_by_email (db : DB) (email : option string) : list User :=
  filter (fun u => opt_eqb String.eqb (u_email u) email) (users db).

Definition users_by_approved (db : DB) (flag : bool) : list User :=
  filter (fun u => Bool.eqb (u_approved u) flag) (users db).

Definition cases_by_id (db : DB) (cid : nat) : list Case :=
  filter (fun c => Nat.eqb (c_id c) cid) (cases db).

(** [load_user]: [User.query.get(user_id)]. *)
Definition load_user (db : DB) (user_id : nat) : option User :=
  first (users_by_id db user_id).

(** [case.user], the backref of [User.cases]: the row the foreign key points
    to, [None] for a null or dangling key. *)
Definition case_user (db : DB) (c : Case) : option User :=
  match c_uid c with
  | Some k => load_user db k
  | None => None
  end.

(** [UserMixin.__eq__]: two users are equal when their [get_id()] agree;
    comparison with [None] is false. *)
Definition user_eq (a : User) (b : option User) : bool :=
  match b with
  | Some u => Nat.eqb (u_id a) (u_id u)
  | None => false
  end.

(** ** Writes: the unit of work *)

Inductive UserAttr := attr_name | attr_last_name | attr_email.
Inductive CaseAttr := attr_title | attr_description | attr_content.

(** What [db.session] holds until the commit. *)
Inductive Op :=
| AddUser (name last_name : option string) (password : string)
          (email : option string) (role : option Z)
          (detective_id : option string) (approved : bool)
| AddCase (uid : option nat) (title description content : option string)
| SetUserAttr (uid : nat) (a : UserAttr) (v : option string)
| SetUserApproved (uid : nat) (v : bool)
| SetCaseAttr (cid : nat) (a : CaseAttr) (v : option string)
| DeleteUser (uid : nat)
| DeleteCase (cid : nat).

(** The rowid SQLite gives a new row of an [INTEGER PRIMARY KEY] table: one
    more than the largest in use, as long as that is below the largest
    rowid there is, 2^63-1, which no request can store. *)
Definition next_id (ids : list nat) : nat := S (list_max ids).

Definition is_null {A} (o : option A) : bool :=
  match o with None => true | Some _ => false end.

Definition user_with (a : UserAttr) (v : option string) (u : User) : User :=
  match a with
  | attr_name =>
      mkUser (u_id u) v (u_last_name u) (u_password u) (u_email u)
             (u_role u) (u_detective_id u) (u_approved u)
  | attr_last_name =>
      mkUser (u_id u) (u_name u) v (u_password u) (u_email u)
             (u_role u) (u_detective_id u) (u_approved u)
  | attr_email =>
      mkUser (u_id u) (u_name u) (u_last_name u) (u_password u) v
             (u_role u) (u_detective_id u) (u_approved u)
  end.

Definition user_with_approved (v : bool) (u : User) : User :=
  mkUser (u_id u) (u_name u) (u_last_name u) (u_password u) (u_email u)
         (u_role u) (u_detective_id u) v.

Definition case_with (a : CaseAttr) (v : option string) (c : Case) : Case :=
  match a with
  | attr_title => mkCase (c_id c) (c_uid c) v (c_description c) (c_content c)
  | attr_description => mkCase (c_id c) (c_uid c) (c_title c) v (c_content c)
  | attr_content => mkCase (c_id c) (c_uid c) (c_title c) (c_description c) v
  end.

Definition case_with_uid (k : option nat) (c : Case) : Case :=
  mkCase (c_id c) k (c_title c) (c_description c) (c_content c).

Definition user_attr_not_null (a : UserAttr) : bool :=
  match a with attr_name | attr_email => true | attr_last_name => false end.

Definition case_attr_not_null (a : CaseAttr) : bool :=
  match a with attr_title | attr_content => true | attr_description => false end.

(** Deleting a user whose [cases] relationship has no delete cascade: the
    unit of work first sets the foreign key of the owned cases to NULL. *)
Definition orphan (uid : nat) (c : Case) : Case :=
  if opt_eqb Nat.eqb (c_uid c) (Some uid) then case_with_uid None c else c.

(** One statement of the flush; [None] is an [IntegrityError] (a NOT NULL
    column would receive NULL). *)
Definition flush_op (db : DB) (op : Op) : option DB :=
  match op with
  | AddUser name last_name password email role detective_id approved =>
      if is_null name || is_null email then None
      else Some (mkDB (users db ++
                         [mkUser (next_id (map u_id (users db))) name last_name
                                 password email role detective_id approved])
                      (cases db))
  | AddCase uid title description content =>
      if is_null title || is_null content then None
      else Some (mkDB (users db)
                      (cases db ++
                         [mkCase (next_id (map c_id (cases db))) uid title
                                 description content]))
  | SetUserAttr uid a v =>
      if user_attr_not_null a && is_null v then None
      else Some (mkDB (map (fun u => if Nat.eqb (u_id u) uid
                                     then user_with a v u else u) (users db))
                      (cases db))
  | SetUserApproved uid v =>
      Some (mkDB (map (fun u => if Nat.eqb (u_id u) uid
                                then user_with_approved v u else u) (users db))
                 (cases db))
  | SetCaseAttr cid a v =>
      if case_attr_not_null a && is_null v then None
      else Some (mkDB (users db)
                      (map (fun c => if Nat.eqb (c_id c) cid
                                     then case_with a v c else c) (cases db)))
  | DeleteUser uid =>
      Some (mkDB (filter (fun u => negb (Nat.eqb (u_id u) uid)) (users db))
                 (map (orphan uid) (cases db)))
  | DeleteCase cid =>
      Some (mkDB (users db)
                 (filter (fun c => negb (Nat.eqb (c_id c) cid)) (cases db)))
  end.

Fixpoint flush (db : DB) (ops : list Op) : option DB :=
  match ops with
  | [] => Some db
  | op :: rest =>
      match flush_op db op with
      | Some db1 => flush db1 rest
      | None => None
      end
  end.

(** ** Requests and responses *)

Inductive Method := GET | POST.

(** The URL rules of the application; [<uid>] and [<cid>] are the row keys
    the path segment denotes. *)
Inductive Route :=
| route_index
| route_register_guest
| route_register_detective
| route_login
| route_logout
| route_users
| route_user_page (uid : nat)
| route_delete_user (uid : nat)
| route_approvals
| route_approve (uid : nat)
| route_new_case
| route_case_page (cid : nat)
| route_delete_case (cid : nat).

(** The targets [url_for] is called with. [url_login_next] is where
    [login_required] sends an anonymous client. *)
Inductive Url :=
| url_index
| url_login (new_user : bool)
| url_login_next (next : Route)
| url_users
| url_approvals
| url_user_page (uid : nat)
| url_case_page (cid : nat).

(** The templates, with the keyword arguments they are rendered with. *)
Inductive Page :=
| index_html (cases : list Case)
| register_html (register_type : string) (error : option string)
| login_html
| users_html (users : list User) (approvals : bool)
| user_page_html (user : User)
| new_case_html
| case_page_html (case : Case).

Inductive PyError :=
| AttributeError
| IntegrityError
| ValueError
| TypeError
| MailError.

(** What the client receives. An exception no view catches becomes
    [internal_server_error]. *)
Inductive Response :=
| render_template (p : Page)
| redirect (u : Url)
| abort (code : nat)
| internal_server_error (e : PyError).

Record EmailMessage := mkEmailMessage {
  subject : string;
  body : string;
  from_email : option string;
  to : list string
}.

(** Calls into the libraries that act outside the database. *)
Inductive Effect :=
| ev_login_user (uid : nat)
| ev_logout_user
| ev_send (msg : EmailMessage)
| ev_print (text : string).

Record Request := mkRequest {
  rq_session : option nat;      (* the user id in the session cookie *)
  rq_method : Method;
  rq_route : Route;
  rq_form : Form;
  rq_mail_up : bool             (* does the mail transport accept a message *)
}.

(** ** Python control flow: state and exceptions *)

Inductive Exc (A : Type) :=
| Ok (a : A)
| Raise (e : PyError).
Arguments Raise {A} e.

(** What a view can read and change while it runs. [w_db] is what is stored;
    [w_pending] is the unit of work. *)
Record World := mkWorld {
  w_db : DB;
  w_pending : list Op;
  w_session : option nat;
  w_log : list Effect
}.

Definition M (A : Type) : Type := World -> Exc A * World.

Definition ret {A} (a : A) : M A := fun w => (Ok a, w).

Definition bind {A B} (m : M A) (k : A -> M B) : M B :=
  fun w =>
    match m w with
    | (Ok a, w1) => k a w1
    | (Raise e, w1) => (Raise e, w1)
    end.

Declare Scope py_scope.
Delimit Scope py_scope with py.
Notation "x <- m ;; k" := (bind m (fun x => k))
  (at level 61, m at next level, right associativity) : py_scope.
Notation "m ;;; k" := (bind m (fun _ => k))
  (at level 61, right associativity) : py_scope.
Local Open Scope py_scope.

Definition raise {A} (e : PyError) : M A := fun w => (Raise e, w).

Definition lift {A} (x : Exc A) : M A := fun w => (x, w).

(** [try: body except: handler] with a bare [except]. *)
Definition try_except (body handler : M unit) : M unit :=
  fun w =>
    match body w with
    | (Ok tt, w1) => (Ok tt, w1)
    | (Raise _, w1) => handler w1
    end.

Definition query {A} (q : DB -> A) : M A := fun w => (Ok (q (w_db w)), w).

Definition stage (op : Op) : M unit :=
  fun w => (Ok tt, mkWorld (w_db w) (w_pending w ++ [op]) (w_session w) (w_log w)).

Definition emit (e : Effect) : M unit :=
  fun w => (Ok tt, mkWorld (w_db w) (w_pending w) (w_session w) (w_log w ++ [e])).

(** [db.session.commit()]. *)
Definition db_session_commit : M unit :=
  fun w =>
    match flush (w_db w) (w_pending w) with
    | Some db1 => (Ok tt, mkWorld db1 [] (w_session w) (w_log w))
    | None => (Raise IntegrityError, mkWorld (w_db w) [] (w_session w) (w_log w))
    end.

(** [current_user]: the row the session cookie resolves to, [None] for the
    anonymous user. *)
Definition current_user : M (option User) :=
  fun w =>
    (Ok match w_session w with
        | Some k => load_user (w_db w) k
        | None => None
        end, w).

Definition login_user (user : User) : M unit :=
  fun w => (Ok tt, mkWorld (w_db w) (w_pending w) (Some (u_id user))
                           (w_log w ++ [ev_login_user (u_id user)])).

Definition logout_user : M unit :=
  fun w => (Ok tt, mkWorld (w_db w) (w_pending w) None (w_log w ++ [ev_logout_user])).

(** [msg.send()]: one delivery attempt, which raises when the transport
    refuses. *)
Definition msg_send (up : bool) (msg : EmailMessage) : M unit :=
  emit (ev_send msg) ;;; if up then ret tt else raise MailError.

Definition print (text : string) : M unit := emit (ev_print text).

(** Attribute access on the result of [.first()]: [None] has no attributes. *)
Definition getattr {A} (o : option A) : M A :=
  match o with
  | Some x => ret x
  | None => raise AttributeError
  end.

Definition setattr_user (o : option User) (a : UserAttr) (v : option string) : M unit :=
  match o with
  | Some u => stage (SetUserAttr (u_id u) a v)
  | None => raise AttributeError
  end.

Definition setattr_case (o : option Case) (a : CaseAttr) (v : option string) : M unit :=
  match o with
  | Some c => stage (SetCaseAttr (c_id c) a v)
  | None => raise AttributeError
  end.

(** The [flask_bcrypt] calls; either may raise on the value it is given. *)
Class Bcrypt := {
  generate_password_hash : option string -> Exc string;
  check_password_hash : string -> option string -> Exc bool
}.

(** The [@login_required] decorator: an anonymous client is sent to the
    login view, otherwise the view runs with [current_user]. *)
Definition login_required (here : Route) (view : User -> M Response) : M Response :=
  cu <- current_user ;;
  match cu with
  | Some u => view u
  | None => ret (redirect (url_login_next here))
  end.

(** ** The views *)

Section Views.

Context {settings : Settings} {bcrypt : Bcrypt}.

Variable request : Request.

Let method := rq_method request.
Let form := rq_form request.

Definition is_authenticated : M bool :=
  cu <- current_user ;;
  ret (negb (is_null cu)).

(** Homepage. *)
Definition index : M Response :=
  login_required route_index (fun _ =>
    all_cases <- query cases ;;
    ret (render_template (index_html all_cases))).

(** Guest registering page. *)
Definition register_guest : M Response :=
  authed <- is_authenticated ;;
  if authed then ret (redirect url_index) else
  let register_type := "register_guest" in
  match method with
  | GET => ret (render_template (register_html register_type None))
  | POST =>
      let name := form_get form "name" in
      let last_name := form_get form "last_name" in
      let email := form_get form "email" in
      let password := form_get form "password" in
      password_hashed <- lift (generate_password_hash password) ;;
      has_email <- query (fun db => first (users_by_email db email)) ;;
      (* Checks if e-mail already in database *)
      match has_email with
      | Some _ =>
          ret (render_template
                 (register_html register_type (Some SAME_EMAIL_ERROR)))
      | None =>
          stage (AddUser name last_name password_hashed email
                         (Some GUEST_ROLE) None true) ;;;
          db_session_commit ;;;
          ret (redirect url_index)
      end
  end.

(** Detective registering page. *)
Definition register_detective : M Response :=
  authed <- is_authenticated ;;
  if authed then ret (redirect url_index) else
  let register_type := "register_detective" in
  match method with
  | GET => ret (render_template (register_html register_type None))
  | POST =>
      let name := form_get form "name" in
      let last_name := form_get form "last_name" in
      let email := form_get form "email" in
      let password := form_get form "password" in
      let detective_id := form_get form "detective_id" in
      password_hashed <- lift (generate_password_hash password) ;;
      has_email <- query (fun db => first (users_by_email db email)) ;;
      (* Checks if e-mail already in database *)
      match has_email with
      | Some _ =>
          ret (render_template
                 (register_html register_type (Some SAME_EMAIL_ERROR)))
      | None =>
          (* Sends user as not approved, because the Boss has to approve
             it first *)
          stage (AddUser name last_name password_hashed email
                         (Some DETECTIVE_ROLE) detective_id false) ;;;
          db_session_commit ;;;
          ret (redirect (url_login true))
      end
  end.

(** Login page. *)
Definition login : M Response :=
  authed <- is_authenticated ;;
  if authed then ret (redirect url_index) else
  match method with
  | GET => ret (render_template login_html)
  | POST =>
      let email := form_get form "email" in
      let password := form_get form "password" in
      found <- query (fun db => first (users_by_email db email)) ;;
      match found with
      | None => ret (redirect (url_login false))
      | Some user =>
          matches <- lift (check_password_hash (u_password user) password) ;;
          if matches then
            if u_approved user then
              login_user user ;;;
              ret (redirect url_index)
            else ret (redirect (url_login false))
          else ret (redirect (url_login false))
      end
  end.

(** Logout. *)
Definition logout : M Response :=
  login_required route_logout (fun _ =>
    logout_user ;;;
    ret (redirect url_index)).

(** User list: the view [users] of the source ([users] names the table
    here). *)
Definition users_view : M Response :=
  login_required route_users (fun cu =>
    if negb (role_in (u_role cu) [DETECTIVE_ROLE; BOSS_ROLE])
    then ret (redirect url_index)
    else
      user_list <- query users ;;
      ret (render_template (users_html user_list false))).

(** User pages. *)
Definition user_page (uid : nat) : M Response :=
  login_required (route_user_page uid) (fun cu =>
    match method with
    | GET =>
        found <- query (fun db => first (users_by_id db uid)) ;;
        match found with
        | None => ret (abort 404)
        | Some user =>
            if role_in (u_role cu) [DETECTIVE_ROLE; BOSS_ROLE]
               || user_eq cu (Some user)
            then ret (render_template (user_page_html user))
            else ret (redirect url_index)
        end
    | POST =>
        user <- query (fun db => first (users_by_id db uid)) ;;
        setattr_user user attr_name (form_get form "name") ;;;
        setattr_user user attr_last_name (form_get form "last_name") ;;;
        setattr_user user attr_email (form_get form "email") ;;;
        db_session_commit ;;;
        ret (redirect (url_user_page uid))
    end).

(** Delete users. *)
Definition delete_user (uid : nat) : M Response :=
  login_required (route_delete_user uid) (fun cu =>
    match method with
    | GET => ret (redirect url_index)
    | POST =>
        if negb (role_eq (u_role cu) BOSS_ROLE)
        then ret (redirect url_index)
        else
          found <- query (fun db => first (users_by_id db uid)) ;;
          match found with
          | Some user =>
              stage (DeleteUser (u_id user)) ;;;
              db_session_commit ;;;
              ret (redirect url_users)
          | None => ret (redirect url_index)
          end
    end).

(** Users to be approved list. *)
Definition approvals : M Response :=
  login_required route_approvals (fun cu =>
    if negb (role_eq (u_role cu) BOSS_ROLE)
    then ret (redirect url_index)
    else
      user_list <- query (fun db => users_by_approved db false) ;;
      ret (render_template (users_html user_list true))).

Definition approval_message (user : User) : EmailMessage :=
  mkEmailMessage
    "Account approved"
    (String.append "Your account has been approved!Login to use the website: "
       (String.append (py_str DOMAIN) "/login"))
    EMAIL_ACCOUNT
    [py_str (u_email user)].

Definition settings_warning : string :=
  String.append "There\s something wrong with your e-mail settings"
                (String "010"%char EmptyString).

(** Approve users. *)
Definition approve (uid : nat) : M Response :=
  login_required (route_approve uid) (fun cu =>
    match method with
    | GET => ret (redirect url_index)
    | POST =>
        if negb (role_eq (u_role cu) BOSS_ROLE)
        then ret (redirect url_index)
        else
          found <- query (fun db => first (users_by_id db uid)) ;;
          match found with
          | Some user =>
              stage (SetUserApproved (u_id user) true) ;;;
              try_except
                (* Sends an e-mail if account is approved *)
                (let msg := approval_message user in
                 msg_send (rq_mail_up request) msg)
                (print settings_warning) ;;;
              db_session_commit ;;;
              ret (redirect url_approvals)
          | None => ret (redirect url_index)
          end
    end).

(** Creates a new case. *)
Definition new_case : M Response :=
  login_required route_new_case (fun cu =>
    if negb (role_in (u_role cu) [DETECTIVE_ROLE; BOSS_ROLE])
    then ret (redirect url_index)
    else
      match method with
      | GET => ret (render_template new_case_html)
      | POST =>
          let title := form_get form "title" in
          let description := form_get form "description" in
          let content := form_get form "content" in
          let uid := u_id cu in
          stage (AddCase (Some uid) title description content) ;;;
          db_session_commit ;;;
          ret (redirect url_index)
      end).

(** Case page. *)
Definition case_page (cid : nat) : M Response :=
  login_required (route_case_page cid) (fun _ =>
    match method with
    | GET =>
        found <- query (fun db => first (cases_by_id db cid)) ;;
        match found with
        | None => ret (abort 404)
        | Some case => ret (render_template (case_page_html case))
        end
    | POST =>
        case <- query (fun db => first (cases_by_id db cid)) ;;
        setattr_case case attr_title (form_get form "title") ;;;
        setattr_case case attr_description (form_get form "description") ;;;
        setattr_case case attr_content (form_get form "content") ;;;
        db_session_commit ;;;
        ret (redirect (url_case_page cid))
    end).

(** Delete cases. The condition is
    [(role == BOSS_ROLE or current_user == case_to_delete.user) and case_to_delete]:
    [or] evaluates its right operand, which reads an attribute of
    [case_to_delete], only when the left one is false. *)
Definition delete_case (cid : nat) : M Response :=
  login_required (route_delete_case cid) (fun cu =>
    match method with
    | GET => ret (redirect url_index)
    | POST =>
        case_to_delete <- query (fun db => first (cases_by_id db cid)) ;;
        allowed <- (if role_eq (u_role cu) BOSS_ROLE then ret true
                    else
                      case <- getattr case_to_delete ;;
                      owner <- query (fun db => case_user db case) ;;
                      ret (user_eq cu owner)) ;;
        match (if allowed : bool then case_to_delete else None) with
        | Some case =>
            stage (DeleteCase (c_id case)) ;;;
            db_session_commit ;;;
            ret (redirect url_index)
        | None => ret (redirect url_index)
        end
    end).

(** POST /users/pending. The rule of [approvals] takes GET only, so the
    request falls to the rule [/users/<uid>] with the text [pending] for
    [uid], and [user_page] runs its POST branch: no integer key equals the
    text, [.first()] finds no row, and [url_for('user_page', uid=uid)] is
    the URL of the pending list. *)
Definition user_page_pending : M Response :=
  login_required route_approvals (fun _ =>
    user <- query (fun _ => @None User) ;;
    setattr_user user attr_name (form_get form "name") ;;;
    setattr_user user attr_last_name (form_get form "last_name") ;;;
    setattr_user user attr_email (form_get form "email") ;;;
    db_session_commit ;;;
    ret (redirect url_approvals)).

(** URL dispatch. A rule declared without [methods] accepts GET only; a
    POST it refuses goes to another rule that matches the path, if any. *)
Definition dispatch : M Response :=
  match rq_route request, method with
  | route_index, GET => index
  | route_register_guest, _ => register_guest
  | route_register_detective, _ => register_detective
  | route_login, _ => login
  | route_logout, GET => logout
  | route_users, GET => users_view
  | route_user_page uid, _ => user_page uid
  | route_delete_user uid, _ => delete_user uid
  | route_approvals, GET => approvals
  | route_approvals, POST => user_page_pending
  | route_approve uid, _ => approve uid
  | route_new_case, _ => new_case
  | route_case_page cid, _ => case_page cid
  | route_delete_case cid, _ => delete_case cid
  | _, POST => ret (abort 405)
  end.

End Views.

(** ** One request against the stored database *)

Record Reply := mkReply {
  rp_db : DB;
  rp_session : option nat;
  rp_response : Response;
  rp_log : list Effect
}.

(** Runs the view for [rq] on the stored [db]. What was staged and not
    committed is dropped when the request ends. *)
Definition handle {settings : Settings} {bcrypt : Bcrypt}
    (db : DB) (rq : Request) : Reply :=
  match dispatch rq (mkWorld db [] (rq_session rq) []) with
  | (Ok resp, w) => mkReply (w_db w) (w_session w) resp (w_log w)
  | (Raise e, w) =>
      mkReply (w_db w) (w_session w) (internal_server_error e) (w_log w)
  end.

(** A sequence of requests, each with the cookie its client presents. *)
Record Step := mkStep {
  st_before : DB;
  st_request : Request;
  st_reply : Reply
}.

Fixpoint trace {settings : Settings} {bcrypt : Bcrypt}
    (db : DB) (rqs : list Request) : list Step :=
  match rqs with
  | [] => []
  | rq :: rest =>
      let rp := handle db rq in
      mkStep db rq rp :: trace (rp_db rp) rest
  end.

(** ** A concrete installation, for running the views

    A stand-in for [flask_bcrypt]: hashing refuses a missing or empty
    password and otherwise tags it; checking compares with the tagged
    candidate. *)
Definition demo_settings : Settings :=
  {| DOMAIN := Some "http://agency.example";
     EMAIL_ACCOUNT := Some "boss@agency.example" |}.

Definition demo_hash (s : string) : string := String.append "$2b$" s.

Definition demo_bcrypt : Bcrypt :=
  {| generate_password_hash := fun p =>
       match p with
       | None => Raise ValueError
       | Some EmptyString => Raise ValueError
       | Some s => Ok (demo_hash s)
       end;
     check_password_hash := fun h p =>
       match p with
       | None => Raise TypeError
       | Some s => Ok (String.eqb h (demo_hash s))
       end |}.

Definition demo_handle : DB -> Request -> Reply :=
  @handle demo_settings demo_bcrypt.

Definition demo_trace : DB -> list Request -> list Step :=
  @trace demo_settings demo_bcrypt.

(** The seeded Boss, an approved detective who owns case 1, and a guest. *)
Definition admin : User :=
  mkUser 1 (Some "Admin") None (demo_hash "1234") (Some "admin@email.com")
         (Some BOSS_ROLE) None true.

Definition carol : User :=
  mkUser 2 (Some "Carol") (Some "Diaz") (demo_hash "pw-carol")
         (Some "carol@x.com") (Some DETECTIVE_ROLE) (Some "D-17") true.

Definition bob : User :=
  mkUser 3 (Some "Bob") None (demo_hash "pw-bob") (Some "bob@x.com")
         (Some GUEST_ROLE) None true.

Definition case1 : Case :=
  mkCase 1 (Some 2) (Some "Case1") None (Some "Missing cat").

Definition demo_db : DB := mkDB [admin; carol; bob] [case1].

Definition alice_form : Form :=
  [("name", "Alice"); ("last_name", "Liddell"); ("email", "alice@x.com");
   ("password", "pw-alice"); ("detective_id", "D-42")].

(** Alice registers as a detective, tries to log in, and is approved by
    the Boss while the mail transport is down. *)
Definition alice : User :=
  mkUser 4 (Some "Alice") (Some "Liddell") (demo_hash "pw-alice")
         (Some "alice@x.com") (Some DETECTIVE_ROLE) (Some "D-42") false.

Definition register_alice : Request :=
  mkRequest None POST route_register_detective alice_form true.

Definition with_alice : DB := mkDB [admin; carol; bob; alice] [case1].

Definition login_alice : Request :=
  mkRequest None POST route_login
            [("email", "alice@x.com"); ("password", "pw-alice")] true.

Definition approve_alice : Request :=
  mkRequest (Some 1) POST (route_approve 4) [] false.

Definition with_alice_approved : DB :=
  mkDB [admin; carol; bob; user_with_approved true alice] [case1].

(** Dave registers as a guest; Carol files a second case. *)
Definition dave_form : Form :=
  [("name", "Dave"); ("email", "dave@x.com"); ("password", "pw-dave")].

Definition register_dave : Request :=
  mkRequest None POST route_register_guest dave_form true.


(** A registration with Bob's e-mail and a login for Bob's e-mail, both
    without a password field, and a login for an e-mail nobody has. *)
Definition register_bob_again : Request :=
  mkRequest None POST route_register_guest
            [("name", "Robert"); ("email", "bob@x.com")] true.

Definition bob_login_form : Form := [("email", "bob@x.com")].

Definition nobody_login_form : Form := [("email", "nobody@x.com")].

Definition case2_form : Form :=
  [("title", "Case2"); ("content", "Lost dog")].

Definition case2 : Case :=
  mkCase 2 (Some 2) (Some "Case2") None (Some "Lost dog").

(** * Vocabulary of the properties *)

(** The roles the application knows. *)
Definition is_role (r : Z) : Prop :=
  r = GUEST_ROLE \/ r = DETECTIVE_ROLE \/ r = BOSS_ROLE.

(** The user a request acts as. *)
Definition actor (db : DB) (rq : Request) : option User :=
  match rq_session rq with
  | Some k => load_user db k
  | None => None
  end.

Definition acts_as_boss (db : DB) (rq : Request) : bool :=
  match actor db rq with
  | Some cu => role_eq (u_role cu) BOSS_ROLE
  | None => false
  end.

Definition is_post (m : Method) : bool :=
  match m with POST => true | GET => false end.

Definition is_render (r : Response) : bool :=
  match r with render_template _ => true | _ => false end.

Definition is_send (e : Effect) : bool :=
  match e with ev_send _ => true | _ => false end.

(** ** The role matrix of the specification, section 4.2 *)

Inductive Action :=
| create_case
| delete_own_case
| delete_others_case
| approve_user
| delete_any_user.

(** The table of section 4.2, read for the five actions: creating a case
    is for Detective and Boss; deleting one's own case is yes for Detective
    and Boss and not applicable to a Guest ([None]); deleting someone else's
    case, approving a user and deleting a user are for the Boss alone. *)
Definition policy_table (r : Z) (a : Action) : option bool :=
  match a with
  | create_case => Some (Z.eqb r DETECTIVE_ROLE || Z.eqb r BOSS_ROLE)
  | delete_own_case => if Z.eqb r GUEST_ROLE then None else Some true
  | delete_others_case => Some (Z.eqb r BOSS_ROLE)
  | approve_user => Some (Z.eqb r BOSS_ROLE)
  | delete_any_user => Some (Z.eqb r BOSS_ROLE)
  end.

(** The route an action is posted to; [target] is the case or user id. *)
Definition action_route (a : Action) (target : nat) : Route :=
  match a with
  | create_case => route_new_case
  | delete_own_case | delete_others_case => route_delete_case target
  | approve_user => route_approve target
  | delete_any_user => route_delete_user target
  end.

(** The situation an action of the matrix is about: the form is complete,
    or the target exists and is (or is not) the actor's own. *)
Definition applicable (a : Action) (db : DB) (cu : User) (target : nat)
    (f : Form) : Prop :=
  match a with
  | create_case =>
      form_get f "title" <> None /\ form_get f "content" <> None
  | delete_own_case =>
      exists c, first (cases_by_id db target) = Some c
                /\ c_uid c = Some (u_id cu)
  | delete_others_case =>
      exists c, first (cases_by_id db target) = Some c
                /\ c_uid c <> Some (u_id cu)
  | approve_user | delete_any_user =>
      first (users_by_id db target) <> None
  end.

(** What the stored tables look like once the action has been performed. *)
Definition performed (a : Action) (db : DB) (cu : User) (target : nat)
    (f : Form) (db1 : DB) : Prop :=
  match a with
  | create_case =>
      users db1 = users db /\
      cases db1 = cases db ++
        [mkCase (next_id (map c_id (cases db))) (Some (u_id cu))
                (form_get f "title") (form_get f "description")
                (form_get f "content")]
  | delete_own_case | delete_others_case =>
      users db1 = users db /\
      cases db1 = filter (fun c => negb (Nat.eqb (c_id c) target)) (cases db)
  | approve_user =>
      cases db1 = cases db /\
      users db1 = map (fun u => if Nat.eqb (u_id u) target
                                then mkUser (u_id u) (u_name u) (u_last_name u)
                                            (u_password u) (u_email u)
                                            (u_role u) (u_detective_id u) true
                                else u)
                      (users db)
  | delete_any_user =>
      users db1 = filter (fun u => negb (Nat.eqb (u_id u) target)) (users db) /\
      map c_id (cases db1) = map c_id (cases db)
  end.

Definition success_url (a : Action) : Url :=
  match a with
  | create_case | delete_own_case | delete_others_case => url_index
  | approve_user => url_approvals
  | delete_any_user => url_users
  end.

(** ** Why a login is refused *)

Inductive LoginFailure := NotFound | WrongPassword | NotApproved.

Definition login_fails {bcrypt : Bcrypt} (db : DB) (f : Form)
    (why : LoginFailure) : Prop :=
  match why with
  | NotFound => first (users_by_email db (form_get f "email")) = None
  | WrongPassword =>
      exists user, first (users_by_email db (form_get f "email")) = Some user
        /\ check_password_hash (u_password user) (form_get f "password")
           = Ok false
  | NotApproved =>
      exists user, first (users_by_email db (form_get f "email")) = Some user
        /\ check_password_hash (u_password user) (form_get f "password")
           = Ok true
        /\ u_approved user = false
  end.

(** ** Events of a request sequence *)









(** ** The mutating routes *)

Definition mutating_routes (uid cid : nat) : list Route :=
  [route_delete_user uid; route_approve uid; route_delete_case cid;
   route_new_case; route_user_page uid; route_case_page cid].

(** The convention for GET as the specification words it, with its own
    exception for unauthorized and missing-target requests left out of
    reach: the actor is a Boss, whom every route admits, and both targets
    are stored. Then a GET on each mutating route is to show a form or
    confirmation page. *)
Definition get_renders_page {settings : Settings} {bcrypt : Bcrypt} : Prop :=
  forall (db : DB) (k : nat) (cu : User) (uid cid : nat) (r : Route)
         (f : Form) (up : bool),
    load_user db k = Some cu ->
    role_eq (u_role cu) BOSS_ROLE = true ->
    first (users_by_id db uid) <> None ->
    first (cases_by_id db cid) <> None ->
    In r (mutating_routes uid cid) ->
    is_render (rp_response (handle db (mkRequest (Some k) GET r f up))) = true.

(** ** Rules of the specification, as it words them *)

(** The duplicate e-mail rule as worded: every registration POST from a
    client that is not logged in whose e-mail is the e-mail of a stored user
    stores nothing and is answered with the registration form and
    [SAME_EMAIL_ERROR]. *)
Definition duplicate_email_rerenders {settings : Settings} {bcrypt : Bcrypt}
    : Prop :=
  forall (db : DB) (rq : Request) (u : User),
    rq_route rq = route_register_guest
    \/ rq_route rq = route_register_detective ->
    rq_method rq = POST ->
    actor db rq = None ->
    In u (users db) ->
    u_email u = form_get (rq_form rq) "email" ->
    rp_db (handle db rq) = db /\
    exists register_type,
      rp_response (handle db rq)
      = render_template (register_html register_type (Some SAME_EMAIL_ERROR)).

(** A login attempt that fails: a POST to the login route from a client
    that is not logged in during which [login_user] is not called. *)
Definition login_refused {settings : Settings} {bcrypt : Bcrypt}
    (db : DB) (s : option nat) (f : Form) (up : bool) : Prop :=
  actor db (mkRequest s POST route_login f up) = None /\
  forall uid,
    ~ In (ev_login_user uid)
         (rp_log (handle db (mkRequest s POST route_login f up))).

(** The anti-enumeration rule as worded: any two login attempts that fail
    get the same response. *)
Definition failed_logins_look_alike {settings : Settings} {bcrypt : Bcrypt}
    : Prop :=
  forall (db : DB) (s : option nat) (f1 f2 : Form) (up : bool),
    login_refused db s f1 up ->
    login_refused db s f2 up ->
    rp_response (handle db (mkRequest s POST route_login f1 up))
    = rp_response (handle db (mkRequest s POST route_login f2 up)).



(** ** What a request may write *)

(** The statements a request can hand to the unit of work, with the
    condition under which the view stages each. *)
Definition staged_by (db : DB) (rq : Request) (op : Op) : Prop :=
  match op with
  | AddUser _ _ _ email role detective_id approved =>
      actor db rq = None /\
      email = form_get (rq_form rq) "email" /\
      first (users_by_email db email) = None /\
      ((rq_route rq = route_register_guest /\ role = Some GUEST_ROLE
        /\ detective_id = None /\ approved = true)
       \/
       (rq_route rq = route_register_detective /\ role = Some DETECTIVE_ROLE
        /\ approved = false))
  | AddCase uid _ _ _ =>
      rq_route rq = route_new_case /\
      exists cu, actor db rq = Some cu /\ uid = Some (u_id cu)
                 /\ role_in (u_role cu) [DETECTIVE_ROLE; BOSS_ROLE] = true
  | SetUserAttr uid _ _ =>
      rq_route rq = route_user_page uid /\ actor db rq <> None
  | SetUserApproved uid v =>
      rq_route rq = route_approve uid /\ v = true /\ acts_as_boss db rq = true
  | SetCaseAttr cid _ _ =>
      rq_route rq = route_case_page cid /\ actor db rq <> None
  | DeleteUser uid =>
      rq_route rq = route_delete_user uid /\ acts_as_boss db rq = true
  | DeleteCase cid =>
      rq_route rq = route_delete_case cid /\
      exists cu c, actor db rq = Some cu
                   /\ first (cases_by_id db cid) = Some c
                   /\ (role_eq (u_role cu) BOSS_ROLE = true
                       \/ c_uid c = Some (u_id cu))
  end.

(** The routes behind [@login_required]. *)
Definition is_protected (r : Route) : bool :=
  match r with
  | route_register_guest | route_register_detective | route_login => false
  | _ => true
  end.

(** The protected routes whose rule takes GET only and whose path no
    other rule matches. *)
Definition get_only (r : Route) : bool :=
  match r with
  | route_index | route_logout | route_users => true
  | _ => false
  end.

(** The NOT NULL columns hold a value. *)
Definition user_complete (u : User) : Prop :=
  u_name u <> None /\ u_email u <> None.

Definition case_complete (c : Case) : Prop :=
  c_title c <> None /\ c_content c <> None.

Definition complete (db : DB) : Prop :=
  Forall user_complete (users db) /\ Forall case_complete (cases db).

(** The primary keys are keys. *)
Definition keys_unique (db : DB) : Prop :=
  NoDup (map u_id (users db)) /\ NoDup (map c_id (cases db)).

(** What no request changes in a stored user, and the one direction in which
    [approved] moves. *)
Definition same_account (u0 u : User) : Prop :=
  u_id u = u_id u0 /\ u_role u = u_role u0 /\ u_password u = u_password u0
  /\ u_detective_id u = u_detective_id u0
  /\ (u_approved u0 = true -> u_approved u = true).

(** What no request changes in a stored case, up to the owner key being
    cleared. *)
Definition same_file (c0 c : Case) : Prop :=
  c_id c = c_id c0 /\ (c_uid c = c_uid c0 \/ c_uid c = None).

(** A user row after the profile form has been applied to the rows with
    id [uid], and a case row after the case form has been applied to the rows
    with id [cid]. *)
Definition edited_user (uid : nat) (name last_name email : option string)
    (u : User) : User :=
  if Nat.eqb (u_id u) uid
  then mkUser (u_id u) name last_name (u_password u) email (u_role u)
              (u_detective_id u) (u_approved u)
  else u.

Definition edited_case (cid : nat) (title description content : option string)
    (c : Case) : Case :=
  if Nat.eqb (c_id c) cid
  then mkCase (c_id c) (c_uid c) title description content
  else c.

(** Unfolds one request down to the queries it makes. *)
Ltac run_view :=
  unfold handle, dispatch, index, register_guest, register_detective, login,
    logout, users_view, user_page, user_page_pending, delete_user, approvals,
    approve, new_case,
    case_page, delete_case, login_required, is_authenticated, current_user,
    setattr_user, setattr_case, getattr, db_session_commit, stage, query,
    msg_send, print, emit, try_except, login_user, logout_user, lift, raise,
    bind, ret;
  cbn [rq_session rq_method rq_route rq_form rq_mail_up
       w_db w_pending w_session w_log is_null negb app].

(** Splits on what the next [match] of the goal inspects. *)
Ltac split_match :=
  match goal with
  | |- context [match ?x with _ => _ end] =>
      lazymatch x with
      | context [match _ with _ => _ end] => fail
      | _ => destruct x eqn:?
      end
  end.


(** The statements flushed on the way from [d0] to [d], oldest first. *)
Ltac flushed_ops d0 d acc :=
  lazymatch d with
  | d0 => acc
  | _ =>
      lazymatch goal with
      | H : flush_op ?d1 ?op = Some d |- _ =>
          flushed_ops d0 d1 constr:(op :: acc)
      end
  end.

(** Replays the recorded statements of a flush. *)
Ltac replay_flush :=
  repeat (cbn [flush];
          match goal with
          | H : flush_op ?a ?b = Some _ |- context [flush_op ?a ?b] =>
              rewrite H
          end);
  cbn [flush]; try reflexivity.

(** Turns what the tests of a view returned into facts about the rows. *)
Ltac settle by_user by_case :=
  repeat match goal with
         | H : negb _ = false |- _ => apply Bool.negb_false_iff in H
         | H : negb _ = true |- _ => apply Bool.negb_true_iff in H
         end;
  repeat match goal with
         | H : first (users_by_id ?db ?k) = Some ?u |- _ =>
             lazymatch goal with
             | _ : u_id u = k |- _ => fail
             | _ => pose proof (by_user db k u H)
             end
         | H : first (cases_by_id ?db ?k) = Some ?c |- _ =>
             lazymatch goal with
             | _ : c_id c = k |- _ => fail
             | _ => pose proof (proj2 (by_case db k c H))
             end
         end.

(** * Properties *)

Unset Implicit Arguments.

(** ** Queries and the session *)

Lemma first_filter_some {A} (p : A -> bool) (l : list A) (x : A) :
  first (filter p l) = Some x -> In x l /\ p x = true.
Proof.
  intros H. assert (Hin : In x (filter p l)).
  { destruct (filter p l); inversion H; subst; now left. }
  now apply filter_In in Hin.
Qed.

Lemma first_filter_none {A} (p : A -> bool) (l : list A) :
  first (filter p l) = None <-> (forall x, In x l -> p x = false).
Proof.
  split.
  - intros H x Hin. destruct (p x) eqn:Hp; [|reflexivity].
    assert (Hf : In x (filter p l)) by (apply filter_In; auto).
    destruct (filter p l); [contradiction | discriminate].
  - intros H. destruct (filter p l) as [|y t] eqn:Hf; [reflexivity|].
    assert (Hy : In y (filter p l)) by (rewrite Hf; now left).
    apply filter_In in Hy. destruct Hy as [Hy Hp]. rewrite (H y Hy) in Hp.
    discriminate.
Qed.

Lemma load_user_some (db : DB) (k : nat) (u : User) :
  load_user db k = Some u -> In u (users db) /\ u_id u = k.
Proof.
  intros H. apply first_filter_some in H. destruct H as [Hin Hid].
  split; [assumption | now apply Nat.eqb_eq].
Qed.

Lemma user_by_id_some (db : DB) (k : nat) (u : User) :
  first (users_by_id db k) = Some u -> u_id u = k.
Proof. intros H. now apply (load_user_some db k u). Qed.

Lemma case_by_id_some (db : DB) (k : nat) (c : Case) :
  first (cases_by_id db k) = Some c -> In c (cases db) /\ c_id c = k.
Proof.
  intros H. apply first_filter_some in H. destruct H as [Hin Hid].
  split; [assumption | now apply Nat.eqb_eq].
Qed.

Section Properties.

Context {settings : Settings} {bcrypt : Bcrypt}.

(** ** Deleting what is not there *)

(** A POST to the user delete route for an id that is not stored redirects
    home and changes nothing, whatever the actor's role. *)
Lemma delete_user_missing (db : DB) (k uid : nat) (cu : User) (f : Form) (up : bool) :
  load_user db k = Some cu ->
  first (users_by_id db uid) = None ->
  handle db (mkRequest (Some k) POST (route_delete_user uid) f up)
  = mkReply db (Some k) (redirect url_index) [].
Proof.
  intros Hcu Hmiss. run_view. rewrite Hcu. cbn.
  destruct (role_eq (u_role cu) BOSS_ROLE); cbn; [|reflexivity].
  rewrite Hmiss. reflexivity.
Qed.

(** The same holds on the case delete route when the actor is a Boss: the
    left operand of [or] is true and the missing case is never read. *)
Lemma delete_case_missing_boss (db : DB) (k cid : nat) (cu : User) (f : Form) (up : bool) :
  load_user db k = Some cu ->
  role_eq (u_role cu) BOSS_ROLE = true ->
  first (cases_by_id db cid) = None ->
  handle db (mkRequest (Some k) POST (route_delete_case cid) f up)
  = mkReply db (Some k) (redirect url_index) [].
Proof.
  intros Hcu Hboss Hmiss. run_view. rewrite Hcu. cbn.
  rewrite Hmiss, Hboss. reflexivity.
Qed.

(** For any other actor the condition reads [case_to_delete.user] on
    [None]: the request ends in an uncaught [AttributeError]. *)
Lemma delete_case_missing_not_boss (db : DB) (k cid : nat) (cu : User) (f : Form) (up : bool) :
  load_user db k = Some cu ->
  role_eq (u_role cu) BOSS_ROLE = false ->
  first (cases_by_id db cid) = None ->
  handle db (mkRequest (Some k) POST (route_delete_case cid) f up)
  = mkReply db (Some k) (internal_server_error AttributeError) [].
Proof.
  intros Hcu Hboss Hmiss. run_view. rewrite Hcu. cbn.
  rewrite Hmiss, Hboss. reflexivity.
Qed.

(** ** Editing what is not there *)

(** C9. For every authenticated actor, a POST to the user edit route or to
    the case edit route whose target id is not stored assigns to an
    attribute of [None]: the request ends in an uncaught [AttributeError],
    nothing is stored and nothing else happens. *)
Theorem edit_missing_target_raises (db : DB) (k id : nat) (cu : User)
    (f : Form) (up : bool) :
  load_user db k = Some cu ->
  (first (users_by_id db id) = None ->
   handle db (mkRequest (Some k) POST (route_user_page id) f up)
   = mkReply db (Some k) (internal_server_error AttributeError) [])
  /\
  (first (cases_by_id db id) = None ->
   handle db (mkRequest (Some k) POST (route_case_page id) f up)
   = mkReply db (Some k) (internal_server_error AttributeError) []).
Proof.
  intros Hcu. split; intros Hmiss; run_view; rewrite Hcu; cbn;
    rewrite Hmiss; reflexivity.
Qed.

(** ** Looking at a user page *)

(** C10. On GET of a user page the existence check runs before the
    authorization check. A Guest asking for an id other than their own
    gets a redirect home from a store that has the user and a 404 from a
    store that has not: the two answers differ, so the Guest can tell the
    two stores apart. *)
Theorem user_page_reveals_existence (db1 db2 : DB) (k uid : nat)
    (cu1 cu2 : User) (f : Form) (up : bool) :
  load_user db1 k = Some cu1 -> u_role cu1 = Some GUEST_ROLE ->
  load_user db2 k = Some cu2 -> u_role cu2 = Some GUEST_ROLE ->
  uid <> k ->
  first (users_by_id db1 uid) <> None ->
  first (users_by_id db2 uid) = None ->
  let rq := mkRequest (Some k) GET (route_user_page uid) f up in
  rp_response (handle db1 rq) = redirect url_index /\
  rp_response (handle db2 rq) = abort 404 /\
  rp_response (handle db1 rq) <> rp_response (handle db2 rq).
Proof.
  intros Hcu1 Hr1 Hcu2 Hr2 Hne Hex Hmiss rq.
  assert (E1 : rp_response (handle db1 rq) = redirect url_index).
  { subst rq. run_view. rewrite Hcu1. cbn.
    destruct (first (users_by_id db1 uid)) as [user|] eqn:Hu; [|congruence].
    cbn. rewrite Hr1. cbn.
    apply user_by_id_some in Hu. apply load_user_some in Hcu1.
    destruct Hcu1 as [_ Hk]. rewrite Hk, Hu.
    destruct (Nat.eqb_spec k uid) as [E|_]; [congruence | reflexivity]. }
  assert (E2 : rp_response (handle db2 rq) = abort 404).
  { subst rq. run_view. rewrite Hcu2. cbn. rewrite Hmiss. reflexivity. }
  split; [exact E1 | split; [exact E2 |]].
  rewrite E1, E2. discriminate.
Qed.

(** ** Registration *)

Lemma email_taken (db : DB) (u : User) (e : option string) :
  In u (users db) -> u_email u = e ->
  exists v, first (users_by_email db e) = Some v.
Proof.
  intros Hin He.
  destruct (first (users_by_email db e)) as [v|] eqn:Hf; [now exists v|].
  unfold users_by_email in Hf.
  rewrite first_filter_none in Hf. specialize (Hf u Hin).
  rewrite He in Hf. destruct e as [s|]; cbn in Hf; [|discriminate].
  rewrite String.eqb_refl in Hf. discriminate.
Qed.

(** C3. A request to either registration route whose submitted e-mail is
    the e-mail of a stored user never changes what is stored; when it is a
    registration attempt (a POST from a client that is not logged in, whose
    password the hashing call accepts), the answer is the registration
    form with [SAME_EMAIL_ERROR]. *)
Theorem duplicate_email_registration (db : DB) (rq : Request) (u : User) :
  rq_route rq = route_register_guest
  \/ rq_route rq = route_register_detective ->
  In u (users db) ->
  u_email u = form_get (rq_form rq) "email" ->
  rp_db (handle db rq) = db /\
  (actor db rq = None ->
   rq_method rq = POST ->
   (exists h, generate_password_hash (form_get (rq_form rq) "password")
              = Ok h) ->
   handle db rq
   = mkReply db (rq_session rq)
       (render_template
          (register_html
             (match rq_route rq with
              | route_register_guest => "register_guest"
              | _ => "register_detective"
              end)
             (Some SAME_EMAIL_ERROR)))
       []).
Proof.
  intros Hroute Hin Hemail.
  destruct (email_taken db u _ Hin Hemail) as [v Hv].
  destruct rq as [s m r f up]. unfold actor. cbn in *.
  destruct Hroute as [-> | ->].
  - split.
    + run_view.
      destruct (match s with Some k => load_user db k | None => None end);
        cbn; [reflexivity|].
      destruct m; cbn; [reflexivity|].
      destruct (generate_password_hash (form_get f "password"));
        cbn; [|reflexivity].
      rewrite Hv. reflexivity.
    + intros Hanon -> [h Hh]. run_view. rewrite Hanon. cbn.
      rewrite Hh. cbn. rewrite Hv. reflexivity.
  - split.
    + run_view.
      destruct (match s with Some k => load_user db k | None => None end);
        cbn; [reflexivity|].
      destruct m; cbn; [reflexivity|].
      destruct (generate_password_hash (form_get f "password"));
        cbn; [|reflexivity].
      rewrite Hv. reflexivity.
    + intros Hanon -> [h Hh]. run_view. rewrite Hanon. cbn.
      rewrite Hh. cbn. rewrite Hv. reflexivity.
Qed.

(** What a registration that goes through stores and answers. *)
Lemma register_guest_creates (db : DB) (s : option nat) (f : Form)
    (up : bool) (h : string) :
  actor db (mkRequest s POST route_register_guest f up) = None ->
  generate_password_hash (form_get f "password") = Ok h ->
  first (users_by_email db (form_get f "email")) = None ->
  form_get f "name" <> None -> form_get f "email" <> None ->
  handle db (mkRequest s POST route_register_guest f up)
  = mkReply
      (mkDB (users db ++
               [mkUser (next_id (map u_id (users db))) (form_get f "name")
                       (form_get f "last_name") h (form_get f "email")
                       (Some GUEST_ROLE) None true])
            (cases db))
      s (redirect url_index) [].
Proof.
  unfold actor; cbn. intros Hanon Hh Hfree Hname Hemail.
  run_view. rewrite Hanon. cbn. rewrite Hh. cbn. rewrite Hfree. cbn.
  destruct (form_get f "name"); [|congruence].
  destruct (form_get f "email"); [|congruence].
  reflexivity.
Qed.

Lemma register_detective_creates (db : DB) (s : option nat) (f : Form)
    (up : bool) (h : string) :
  actor db (mkRequest s POST route_register_detective f up) = None ->
  generate_password_hash (form_get f "password") = Ok h ->
  first (users_by_email db (form_get f "email")) = None ->
  form_get f "name" <> None -> form_get f "email" <> None ->
  handle db (mkRequest s POST route_register_detective f up)
  = mkReply
      (mkDB (users db ++
               [mkUser (next_id (map u_id (users db))) (form_get f "name")
                       (form_get f "last_name") h (form_get f "email")
                       (Some DETECTIVE_ROLE) (form_get f "detective_id")
                       false])
            (cases db))
      s (redirect (url_login true)) [].
Proof.
  unfold actor; cbn. intros Hanon Hh Hfree Hname Hemail.
  run_view. rewrite Hanon. cbn. rewrite Hh. cbn. rewrite Hfree. cbn.
  destruct (form_get f "name"); [|congruence].
  destruct (form_get f "email"); [|congruence].
  reflexivity.
Qed.

(** C5. A guest registration that succeeds, that is, answers a client
    that is not logged in with the redirect home, has stored exactly one new
    user, last, with role Guest and approved; a detective registration that
    succeeds, that is, answers with the redirect to the login page for new
    users, has stored exactly one new user, last, with role Detective and
    not approved. The form decides name, last name, e-mail and detective id
    of the new row and nothing of role and approval; no request to either
    route adds any other row; and a POST from a client that is not logged
    in, with a password that hashes, a free e-mail and a name, does
    succeed. *)
Theorem registered_role_and_approval (db : DB) (rq : Request) :
  let rp := handle db rq in
  let f := rq_form rq in
  let row role detective_id approved h :=
    mkUser (next_id (map u_id (users db))) (form_get f "name")
           (form_get f "last_name") h (form_get f "email") (Some role)
           detective_id approved in
  (rq_route rq = route_register_guest ->
   actor db rq = None ->
   rp_response rp = redirect url_index ->
   exists h, rp_db rp
             = mkDB (users db ++ [row GUEST_ROLE None true h]) (cases db))
  /\
  (rq_route rq = route_register_detective ->
   rp_response rp = redirect (url_login true) ->
   exists h, rp_db rp
             = mkDB (users db
                     ++ [row DETECTIVE_ROLE (form_get f "detective_id") false h])
                    (cases db))
  /\
  (forall u, In u (users (rp_db rp)) -> ~ In u (users db) ->
     (rq_route rq = route_register_guest ->
      u_role u = Some GUEST_ROLE /\ u_approved u = true)
     /\
     (rq_route rq = route_register_detective ->
      u_role u = Some DETECTIVE_ROLE /\ u_approved u = false))
  /\
  (forall h,
     actor db rq = None -> rq_method rq = POST ->
     generate_password_hash (form_get f "password") = Ok h ->
     first (users_by_email db (form_get f "email")) = None ->
     form_get f "name" <> None -> form_get f "email" <> None ->
     (rq_route rq = route_register_guest ->
      rp_response rp = redirect url_index)
     /\
     (rq_route rq = route_register_detective ->
      rp_response rp = redirect (url_login true))).
Proof.
  destruct rq as [s m r f up]. unfold actor. cbn.
  split; [|split; [|split]].
  - intros -> Hanon. run_view. rewrite Hanon. cbn.
    repeat (split_match; cbn); intros Hresp; try discriminate Hresp.
    eexists. reflexivity.
  - intros ->. run_view.
    repeat (split_match; cbn); intros Hresp; try discriminate Hresp.
    all: eexists; reflexivity.
  - intros u Hnew Hold.
    split; intros ->; revert Hnew; run_view;
      (destruct (match s with Some k => load_user db k | None => None end);
       cbn; [intros; contradiction|]);
      (destruct m; cbn; [intros; contradiction|]);
      (destruct (generate_password_hash (form_get f "password"));
       cbn; [|intros; contradiction]);
      (destruct (first (users_by_email db (form_get f "email")));
       cbn; [intros; contradiction|]);
      (destruct (form_get f "name"); cbn; [|intros; contradiction]);
      (destruct (form_get f "email"); cbn; [|intros; contradiction]);
      intros Hnew; apply in_app_or in Hnew;
      (destruct Hnew as [Hnew | [<- | []]]; [contradiction|]);
      split; reflexivity.
  - intros h Hanon -> Hh Hfree Hname Hemail.
    split; intros ->; run_view; rewrite Hanon; cbn; rewrite Hh; cbn;
      rewrite Hfree; cbn;
      (destruct (form_get f "name"); [|congruence]);
      (destruct (form_get f "email"); [|congruence]); reflexivity.
Qed.

(** ** Login *)

(** The reply to a refused login, whatever the reason. *)
Lemma failed_login_reply (db : DB) (s : option nat) (f : Form) (up : bool)
    (why : LoginFailure) :
  actor db (mkRequest s POST route_login f up) = None ->
  login_fails db f why ->
  handle db (mkRequest s POST route_login f up)
  = mkReply db s (redirect (url_login false)) [].
Proof.
  unfold actor; cbn. intros Hanon Hwhy. run_view. rewrite Hanon. cbn.
  destruct why; cbn in Hwhy.
  - rewrite Hwhy. reflexivity.
  - destruct Hwhy as (user & -> & Hcheck). cbn. rewrite Hcheck. reflexivity.
  - destruct Hwhy as (user & -> & Hcheck & Happroved). cbn.
    rewrite Hcheck, Happroved. reflexivity.
Qed.

(** C6. Two login attempts that fail, for any two of the three reasons
    (unknown e-mail, wrong password, account not approved), on any two
    stores, get the same response, the redirect to the plain login page,
    and cause the same effects, none; neither changes what is stored or
    the session. *)
Theorem failed_logins_indistinguishable (db1 db2 : DB) (s1 s2 : option nat)
    (f1 f2 : Form) (up1 up2 : bool) (why1 why2 : LoginFailure) :
  let rq1 := mkRequest s1 POST route_login f1 up1 in
  let rq2 := mkRequest s2 POST route_login f2 up2 in
  actor db1 rq1 = None -> login_fails db1 f1 why1 ->
  actor db2 rq2 = None -> login_fails db2 f2 why2 ->
  rp_response (handle db1 rq1) = redirect (url_login false) /\
  rp_response (handle db2 rq2) = rp_response (handle db1 rq1) /\
  rp_log (handle db2 rq2) = rp_log (handle db1 rq1) /\
  rp_log (handle db1 rq1) = [] /\
  rp_db (handle db1 rq1) = db1 /\ rp_session (handle db1 rq1) = s1 /\
  rp_db (handle db2 rq2) = db2 /\ rp_session (handle db2 rq2) = s2.
Proof.
  intros rq1 rq2 Hanon1 Hwhy1 Hanon2 Hwhy2. subst rq1 rq2.
  rewrite (failed_login_reply db1 s1 f1 up1 why1 Hanon1 Hwhy1).
  rewrite (failed_login_reply db2 s2 f2 up2 why2 Hanon2 Hwhy2).
  cbn. repeat split; reflexivity.
Qed.

(** A login that goes through: the e-mail resolves to an approved user
    whose stored hash matches the password. *)
Lemma login_succeeds (db : DB) (s : option nat) (f : Form) (up : bool)
    (user : User) :
  actor db (mkRequest s POST route_login f up) = None ->
  first (users_by_email db (form_get f "email")) = Some user ->
  check_password_hash (u_password user) (form_get f "password") = Ok true ->
  u_approved user = true ->
  handle db (mkRequest s POST route_login f up)
  = mkReply db (Some (u_id user)) (redirect url_index)
            [ev_login_user (u_id user)].
Proof.
  unfold actor; cbn. intros Hanon Hfound Hcheck Happroved.
  run_view. rewrite Hanon. cbn. rewrite Hfound. cbn.
  rewrite Hcheck, Happroved. reflexivity.
Qed.

(** ** Approval *)

Lemma filter_id_map (g : User -> User) (k : nat) (l : list User) :
  (forall u, u_id (g u) = u_id u) ->
  filter (fun u => Nat.eqb (u_id u) k) (map g l)
  = map g (filter (fun u => Nat.eqb (u_id u) k) l).
Proof.
  intros Hg. induction l as [|u l IH]; cbn; [reflexivity|].
  rewrite Hg. destruct (Nat.eqb (u_id u) k); cbn; now rewrite IH.
Qed.

Lemma approve_as_boss (db : DB) (k uid : nat) (cu target : User) (f : Form)
    (up : bool) :
  load_user db k = Some cu ->
  role_eq (u_role cu) BOSS_ROLE = true ->
  first (users_by_id db uid) = Some target ->
  handle db (mkRequest (Some k) POST (route_approve uid) f up)
  = mkReply
      (mkDB (map (fun u => if Nat.eqb (u_id u) uid
                           then user_with_approved true u else u) (users db))
            (cases db))
      (Some k) (redirect url_approvals)
      (ev_send (approval_message target)
       :: if up then [] else [ev_print settings_warning]).
Proof.
  intros Hcu Hboss Htarget. run_view. rewrite Hcu. cbn. rewrite Hboss. cbn.
  rewrite Htarget. cbn. rewrite (user_by_id_some db uid target Htarget).
  destruct up; reflexivity.
Qed.

(** C4. When a Boss posts the approval of a stored user, one message is
    handed to the mail transport, addressed to that user; whether the
    transport takes it or raises, the user is stored with [approved] true
    and the answer is the redirect to the pending list. A refusal only
    adds a printed warning. *)
Theorem approval_notifies_once (db : DB) (k uid : nat) (cu target : User)
    (f : Form) (up : bool) :
  load_user db k = Some cu ->
  role_eq (u_role cu) BOSS_ROLE = true ->
  first (users_by_id db uid) = Some target ->
  let rp := handle db (mkRequest (Some k) POST (route_approve uid) f up) in
  List.length (filter is_send (rp_log rp)) = 1 /\
  rp_log rp = ev_send (approval_message target)
              :: (if up then [] else [ev_print settings_warning]) /\
  to (approval_message target) = [py_str (u_email target)] /\
  load_user (rp_db rp) uid = Some (user_with_approved true target) /\
  (forall u, In u (users (rp_db rp)) -> u_id u = uid -> u_approved u = true) /\
  rp_response rp = redirect url_approvals /\
  rp_session rp = Some k.
Proof.
  intros Hcu Hboss Htarget rp. subst rp.
  rewrite (approve_as_boss db k uid cu target f up Hcu Hboss Htarget). cbn.
  repeat split.
  - destruct up; reflexivity.
  - unfold load_user, users_by_id. cbn.
    rewrite filter_id_map by (intros u; destruct (Nat.eqb (u_id u) uid); reflexivity).
    unfold users_by_id in Htarget.
    destruct (filter (fun u => Nat.eqb (u_id u) uid) (users db)) as [|t rest] eqn:Hf;
      [discriminate|].
    cbn in Htarget. injection Htarget as ->. cbn.
    assert (Hid : Nat.eqb (u_id target) uid = true).
    { assert (Hin : In target (filter (fun u => Nat.eqb (u_id u) uid) (users db)))
        by (rewrite Hf; now left).
      apply filter_In in Hin. tauto. }
    rewrite Hid. reflexivity.
  - intros u Hin Hid. apply in_map_iff in Hin.
    destruct Hin as (v & <- & _).
    destruct (Nat.eqb (u_id v) uid) eqn:Hv; [reflexivity|].
    rewrite Nat.eqb_neq in Hv. contradiction.
Qed.

(** ** The role matrix *)

Lemma owner_is_actor (db : DB) (k : nat) (cu : User) (c : Case) :
  load_user db k = Some cu ->
  c_uid c = Some (u_id cu) ->
  user_eq cu (case_user db c) = true.
Proof.
  intros Hcu Hown. unfold case_user. rewrite Hown.
  destruct (load_user_some db k cu Hcu) as [_ Hk]. rewrite Hk, Hcu. cbn.
  rewrite Hk. apply Nat.eqb_refl.
Qed.

Lemma owner_is_not_actor (db : DB) (cu : User) (c : Case) :
  c_uid c <> Some (u_id cu) ->
  user_eq cu (case_user db c) = false.
Proof.
  intros Hother. unfold case_user.
  destruct (c_uid c) as [j|]; [|reflexivity].
  destruct (load_user db j) as [o|] eqn:Ho; [|reflexivity].
  apply load_user_some in Ho. destruct Ho as [_ Hj]. cbn.
  apply Nat.eqb_neq. congruence.
Qed.

Lemma map_c_id_orphan (uid : nat) (l : list Case) :
  map c_id (map (orphan uid) l) = map c_id l.
Proof.
  rewrite map_map. apply map_ext. intros c. unfold orphan.
  destruct (opt_eqb Nat.eqb (c_uid c) (Some uid)); reflexivity.
Qed.

(** C2. For an actor whose role is Guest, Detective or Boss, and each of
    the five actions of the matrix in the situation it is about, the POST
    performs the mutation where the table of section 4.2 says yes, and
    stores nothing and redirects home where it says no; the table has no
    entry for a Guest deleting a case of their own. *)
Theorem role_matrix (a : Action) (db : DB) (k target : nat) (cu : User)
    (r : Z) (f : Form) (up : bool) :
  load_user db k = Some cu ->
  u_role cu = Some r ->
  is_role r ->
  applicable a db cu target f ->
  let rp := handle db (mkRequest (Some k) POST (action_route a target) f up) in
  rp_session rp = Some k /\
  match policy_table r a with
  | Some true =>
      performed a db cu target f (rp_db rp)
      /\ rp_response rp = redirect (success_url a)
  | Some false => rp_db rp = db /\ rp_response rp = redirect url_index
  | None => True
  end.
Proof.
  intros Hcu Hr Hrole Happ rp. subst rp.
  destruct a; cbn [action_route policy_table performed success_url applicable] in *.
  - (* create case *)
    destruct Happ as [Ht Hc].
    destruct Hrole as [-> | [-> | ->]]; run_view; rewrite Hcu; cbn;
      rewrite Hr; cbn; try (repeat split; reflexivity);
      (destruct (form_get f "title"); [|congruence]);
      (destruct (form_get f "content"); [|congruence]);
      cbn; repeat split; reflexivity.
  - (* delete own case *)
    destruct Happ as (c & Hc & Hown).
    destruct (case_by_id_some db target c Hc) as [_ Hid].
    pose proof (owner_is_actor db k cu c Hcu Hown) as Heq.
    destruct Hrole as [-> | [-> | ->]]; run_view; rewrite Hcu; cbn;
      rewrite Hc, Hr; cbn; rewrite ?Heq; cbn; rewrite ?Hid;
      repeat split; reflexivity.
  - (* delete someone else's case *)
    destruct Happ as (c & Hc & Hother).
    destruct (case_by_id_some db target c Hc) as [_ Hid].
    pose proof (owner_is_not_actor db cu c Hother) as Hneq.
    destruct Hrole as [-> | [-> | ->]]; run_view; rewrite Hcu; cbn;
      rewrite Hc, Hr; cbn; rewrite ?Hneq; cbn; rewrite ?Hid;
      repeat split; reflexivity.
  - (* approve user *)
    destruct (first (users_by_id db target)) as [t|] eqn:Ht; [|congruence].
    pose proof (user_by_id_some db target t Ht) as Hid.
    destruct Hrole as [-> | [-> | ->]]; run_view; rewrite Hcu; cbn;
      rewrite Hr; cbn; rewrite ?Ht; cbn; rewrite ?Hid;
      try (destruct up); cbn; repeat split; reflexivity.
  - (* delete user *)
    destruct (first (users_by_id db target)) as [t|] eqn:Ht; [|congruence].
    pose proof (user_by_id_some db target t Ht) as Hid.
    destruct Hrole as [-> | [-> | ->]]; run_view; rewrite Hcu; cbn;
      rewrite Hr; cbn; rewrite ?Ht; cbn; rewrite ?Hid;
      repeat split; try reflexivity.
    apply map_c_id_orphan.
Qed.

(** ** GET and POST on the mutating routes *)

(** No GET request stores anything, on any route and for any client. *)
Lemma get_stores_nothing (db : DB) (s : option nat) (r : Route) (f : Form)
    (up : bool) :
  rp_db (handle db (mkRequest s GET r f up)) = db.
Proof.
  destruct r; run_view; repeat (split_match; cbn); reflexivity.
Qed.

(** ** Detectives wait for approval *)

Lemma in_le_list_max (n : nat) (l : list nat) : In n l -> n <= list_max l.
Proof.
  intros Hin. assert (H : Forall (fun k => k <= list_max l) l)
    by (apply list_max_le; lia).
  rewrite Forall_forall in H. now apply H.
Qed.










(** ** What a request writes *)

Lemma user_eq_owner (db : DB) (cu : User) (c : Case) :
  user_eq cu (case_user db c) = true -> c_uid c = Some (u_id cu).
Proof.
  unfold case_user. destruct (c_uid c) as [j|]; [|discriminate].
  destruct (load_user db j) as [o|] eqn:Ho; [|discriminate].
  cbn. intros Heq. apply Nat.eqb_eq in Heq.
  apply load_user_some in Ho. destruct Ho as [_ Hj]. congruence.
Qed.

(** Every request either leaves the store as it is, or is a POST whose
    commit flushes statements the view staged on the conditions of
    [staged_by]. *)
Lemma writes_summary (db : DB) (rq : Request) :
  rp_db (handle db rq) = db \/
  (rq_method rq = POST /\
   exists ops, flush db ops = Some (rp_db (handle db rq))
               /\ Forall (staged_by db rq) ops).
Proof.
  destruct rq as [s m r f up].
  destruct r; run_view;
    repeat (split_match; cbn -[flush_op role_eq role_in] in * );
    cbn [rp_db];
    try (left; reflexivity);
    (right; split; [reflexivity|]);
    match goal with
    | |- exists ops, flush ?d0 ops = Some ?d /\ _ =>
        let ops := flushed_ops d0 d (@nil Op) in exists ops
    end;
    (split; [replay_flush|]);
    repeat apply Forall_cons; try apply Forall_nil;
    unfold staged_by, acts_as_boss, actor; cbn -[role_eq role_in].
  all: settle user_by_id_some case_by_id_some.
  all: try match goal with
           | H : is_null (load_user ?d ?n) = true |- _ =>
               destruct (load_user d n); [discriminate H|]
           end.
  all: try match goal with
           | H : load_user _ _ = Some _ |- _ => rewrite H
           end.
  all: try (repeat split; solve [ congruence | left; repeat split; congruence
                                | right; repeat split; congruence ]).
  - split; [reflexivity|]. exists u. repeat split; assumption.
  - split; [congruence|]. exists u, c. repeat split; [congruence|].
    now left.
  - split; [congruence|]. exists u, c. repeat split; [congruence|].
    right. eapply user_eq_owner; eassumption.
Qed.

(** A relation between the store before and after that holds of the
    unchanged store and survives every staged statement holds of every
    request. *)
Lemma flush_relates (R : DB -> DB -> Prop) (Q : Op -> Prop) (a : DB) :
  (forall b c op, R a b -> Q op -> flush_op b op = Some c -> R a c) ->
  forall ops b c, R a b -> Forall Q ops -> flush b ops = Some c -> R a c.
Proof.
  intros Hstep. induction ops as [|op ops IH]; intros b c Hab Hq Hf; cbn in Hf.
  - now injection Hf as <-.
  - inversion Hq as [|? ? Hop Hops]; subst.
    destruct (flush_op b op) as [b1|] eqn:Hb; [|discriminate].
    apply (IH b1 c); [eapply Hstep; eassumption | assumption | assumption].
Qed.

Lemma handle_relates (R : DB -> DB -> Prop) (db : DB) (rq : Request) :
  R db db ->
  (rq_method rq = POST ->
   forall b c op, R db b -> staged_by db rq op -> flush_op b op = Some c ->
                  R db c) ->
  R db (rp_db (handle db rq)).
Proof.
  intros Hrefl Hstep.
  destruct (writes_summary db rq) as [-> | (Hpost & ops & Hf & Hq)];
    [assumption|].
  exact (flush_relates R (staged_by db rq) db (Hstep Hpost) ops db _
                       Hrefl Hq Hf).
Qed.

(** *** Keys stay keys *)

Lemma NoDup_snoc {A} (l : list A) (x : A) :
  NoDup l -> ~ In x l -> NoDup (l ++ [x]).
Proof.
  induction l as [|y l IH]; cbn; intros Hnd Hx.
  - constructor; [intros []|constructor].
  - inversion Hnd as [|? ? Hy Hl]; subst. constructor.
    + intros Hin. apply in_app_or in Hin. destruct Hin as [Hin|[->|[]]];
        [contradiction | apply Hx; now left].
    + apply IH; [assumption | intros Hin; apply Hx; now right].
Qed.

Lemma NoDup_map_filter {A B} (g : A -> B) (p : A -> bool) (l : list A) :
  NoDup (map g l) -> NoDup (map g (filter p l)).
Proof.
  induction l as [|x l IH]; cbn; intros Hnd; [constructor|].
  inversion Hnd as [|? ? Hx Hl]; subst.
  destruct (p x); cbn; [|now apply IH]. constructor; [|now apply IH].
  intros Hin. apply Hx. apply in_map_iff in Hin. destruct Hin as (y & <- & Hy).
  apply filter_In in Hy. apply in_map. tauto.
Qed.

Lemma next_id_fresh (ids : list nat) : ~ In (next_id ids) ids.
Proof.
  intros Hin. apply in_le_list_max in Hin. unfold next_id in Hin. lia.
Qed.

Lemma map_u_id_update (p : User -> bool) (g : User -> User) (l : list User) :
  (forall u, u_id (g u) = u_id u) ->
  map u_id (map (fun u => if p u then g u else u) l) = map u_id l.
Proof.
  intros Hg. rewrite map_map. apply map_ext. intros u.
  destruct (p u); [apply Hg | reflexivity].
Qed.

Lemma map_c_id_update (p : Case -> bool) (g : Case -> Case) (l : list Case) :
  (forall c, c_id (g c) = c_id c) ->
  map c_id (map (fun c => if p c then g c else c) l) = map c_id l.
Proof.
  intros Hg. rewrite map_map. apply map_ext. intros c.
  destruct (p c); [apply Hg | reflexivity].
Qed.

Lemma flush_op_keys_unique (db db1 : DB) (op : Op) :
  keys_unique db -> flush_op db op = Some db1 -> keys_unique db1.
Proof.
  intros [Hu Hc] Hf. destruct op; cbn in Hf.
  - destruct (is_null name || is_null email); [discriminate|].
    injection Hf as <-. split; cbn; [|assumption].
    rewrite map_app. cbn. apply NoDup_snoc; [assumption | apply next_id_fresh].
  - destruct (is_null title || is_null content); [discriminate|].
    injection Hf as <-. split; cbn; [assumption|].
    rewrite map_app. cbn. apply NoDup_snoc; [assumption | apply next_id_fresh].
  - destruct (user_attr_not_null a && is_null v); [discriminate|].
    injection Hf as <-. split; cbn; [|assumption].
    rewrite (map_u_id_update (fun u => Nat.eqb (u_id u) uid) (user_with a v));
      [assumption | intros u; destruct a; reflexivity].
  - injection Hf as <-. split; cbn; [|assumption].
    rewrite (map_u_id_update (fun u => Nat.eqb (u_id u) uid)
               (user_with_approved v)); [assumption | reflexivity].
  - destruct (case_attr_not_null a && is_null v); [discriminate|].
    injection Hf as <-. split; cbn; [assumption|].
    rewrite (map_c_id_update (fun c => Nat.eqb (c_id c) cid) (case_with a v));
      [assumption | intros c; destruct a; reflexivity].
  - injection Hf as <-. split; cbn.
    + now apply NoDup_map_filter.
    + now rewrite map_c_id_orphan.
  - injection Hf as <-. split; cbn; [assumption|].
    now apply NoDup_map_filter.
Qed.

(** X1. If no two users and no two cases share an id, the same holds after
    every request of every sequence of requests. *)
Theorem keys_stay_unique (rqs : list Request) :
  forall (db : DB) (st : Step),
    keys_unique db -> In st (trace db rqs) ->
    keys_unique (st_before st) /\ keys_unique (rp_db (st_reply st)).
Proof.
  assert (Hone : forall db rq, keys_unique db ->
                               keys_unique (rp_db (handle db rq))).
  { intros db rq Hk.
    apply (handle_relates (fun _ b => keys_unique b) db rq Hk).
    intros _ b c op Hb _ Hf. now apply (flush_op_keys_unique b c op). }
  induction rqs as [|rq rest IH]; intros db st Hk Hin; [contradiction|].
  cbn in Hin. destruct Hin as [<- | Hin]; cbn.
  - split; [assumption | now apply Hone].
  - apply (IH (rp_db (handle db rq))); [now apply Hone | assumption].
Qed.

(** *** NOT NULL columns stay filled *)

Lemma flush_op_complete (db db1 : DB) (op : Op) :
  complete db -> flush_op db op = Some db1 -> complete db1.
Proof.
  intros [Hu Hc] Hf. destruct op; cbn in Hf.
  - destruct name, email; cbn in Hf; try discriminate.
    injection Hf as <-. split; cbn; [|assumption].
    apply Forall_app. split; [assumption|].
    constructor; [split; discriminate | constructor].
  - destruct title, content; cbn in Hf; try discriminate.
    injection Hf as <-. split; cbn; [assumption|].
    apply Forall_app. split; [assumption|].
    constructor; [split; discriminate | constructor].
  - destruct (user_attr_not_null a && is_null v) eqn:Hnull; [discriminate|].
    injection Hf as <-. split; cbn; [|assumption].
    apply Forall_map. revert Hu. apply Forall_impl. intros u [Hn He].
    destruct (Nat.eqb (u_id u) uid); [|now split].
    destruct a, v; cbn in Hnull; try discriminate; split; cbn;
      first [assumption | discriminate].
  - injection Hf as <-. split; cbn; [|assumption].
    apply Forall_map. revert Hu. apply Forall_impl. intros u Hcomp.
    destruct (Nat.eqb (u_id u) uid); assumption.
  - destruct (case_attr_not_null a && is_null v) eqn:Hnull; [discriminate|].
    injection Hf as <-. split; cbn; [assumption|].
    apply Forall_map. revert Hc. apply Forall_impl. intros c [Ht Hct].
    destruct (Nat.eqb (c_id c) cid); [|now split].
    destruct a, v; cbn in Hnull; try discriminate; split; cbn;
      first [assumption | discriminate].
  - injection Hf as <-. split; cbn.
    + apply Forall_forall. intros u Hin. apply filter_In in Hin.
      rewrite Forall_forall in Hu. now apply Hu.
    + apply Forall_map. revert Hc. apply Forall_impl. intros c Hcomp.
      unfold orphan. destruct (opt_eqb Nat.eqb (c_uid c) (Some uid)); assumption.
  - injection Hf as <-. split; cbn; [assumption|].
    apply Forall_forall. intros c Hin. apply filter_In in Hin.
    rewrite Forall_forall in Hc. now apply Hc.
Qed.

(** X2. If every stored user has a name and an e-mail and every stored
    case a title and a content, the same holds after every request of every
    sequence of requests, whatever the forms leave out. *)
Theorem required_columns_stay_filled (rqs : list Request) :
  forall (db : DB) (st : Step),
    complete db -> In st (trace db rqs) ->
    complete (rp_db (st_reply st)).
Proof.
  assert (Hone : forall db rq, complete db -> complete (rp_db (handle db rq))).
  { intros db rq Hk.
    apply (handle_relates (fun _ b => complete b) db rq Hk).
    intros _ b c op Hb _ Hf. now apply (flush_op_complete b c op). }
  induction rqs as [|rq rest IH]; intros db st Hk Hin; [contradiction|].
  cbn in Hin. destruct Hin as [<- | Hin]; cbn.
  - now apply Hone.
  - apply (IH (rp_db (handle db rq))); [now apply Hone | assumption].
Qed.

(** *** Accounts *)

Lemma same_account_refl (u : User) : same_account u u.
Proof. unfold same_account. tauto. Qed.

Lemma same_account_step (u0 u1 u : User) :
  same_account u0 u1 ->
  u_id u = u_id u1 -> u_role u = u_role u1 ->
  u_password u = u_password u1 -> u_detective_id u = u_detective_id u1 ->
  (u_approved u1 = true -> u_approved u = true) ->
  same_account u0 u.
Proof.
  unfold same_account. intros (H1 & H2 & H3 & H4 & H5) E1 E2 E3 E4 E5.
  repeat split; try congruence. auto.
Qed.

Lemma stored_accounts_persist (db : DB) (rq : Request) (u : User) :
  rq_route rq <> route_register_guest ->
  rq_route rq <> route_register_detective ->
  In u (users (rp_db (handle db rq))) ->
  exists u0, In u0 (users db) /\ same_account u0 u.
Proof.
  intros Hg Hd. revert u.
  apply (handle_relates
           (fun a b => forall u, In u (users b) ->
              exists u0, In u0 (users a) /\ same_account u0 u)
           db rq).
  - intros u Hin. exists u. split; [assumption | apply same_account_refl].
  - intros _ b c op Hb Hq Hf u Hin. destruct op; cbn in Hf, Hq.
    + destruct Hq as (_ & _ & _ & [(Hr & _) | (Hr & _)]); contradiction.
    + destruct (is_null title || is_null content); [discriminate|].
      injection Hf as <-. now apply Hb.
    + destruct (user_attr_not_null a && is_null v); [discriminate|].
      injection Hf as <-. cbn in Hin. apply in_map_iff in Hin.
      destruct Hin as (u1 & <- & Hu1).
      destruct (Hb u1 Hu1) as (u0 & Hu0 & Hsame).
      exists u0. split; [assumption|].
      apply (same_account_step u0 u1); [assumption | | | | |];
        destruct (Nat.eqb (u_id u1) uid); try destruct a; auto.
    + injection Hf as <-. cbn in Hin. apply in_map_iff in Hin.
      destruct Hin as (u1 & <- & Hu1). destruct Hq as (_ & -> & _).
      destruct (Hb u1 Hu1) as (u0 & Hu0 & Hsame).
      exists u0. split; [assumption|].
      apply (same_account_step u0 u1); [assumption | | | | |];
        destruct (Nat.eqb (u_id u1) uid); auto.
    + destruct (case_attr_not_null a && is_null v); [discriminate|].
      injection Hf as <-. now apply Hb.
    + injection Hf as <-. cbn in Hin. apply filter_In in Hin. now apply Hb.
    + injection Hf as <-. now apply Hb.
Qed.

(** X3. Whatever the request, a user stored after it is either a user
    stored before it with the same id, role, password hash and detective
    id, and still approved if it was, or a user under an id that was not
    stored before, added by a registration POST from a client that is not
    logged in, with role Guest on the guest route and Detective on the
    detective route. *)
Theorem accounts_are_stable (db : DB) (rq : Request) (u : User) :
  In u (users (rp_db (handle db rq))) ->
  (exists u0, In u0 (users db) /\ same_account u0 u)
  \/ (~ In (u_id u) (map u_id (users db))
      /\ rq_method rq = POST /\ actor db rq = None
      /\ ((rq_route rq = route_register_guest
           /\ u_role u = Some GUEST_ROLE)
          \/ (rq_route rq = route_register_detective
              /\ u_role u = Some DETECTIVE_ROLE))).
Proof.
  intros Hin.
  assert (Hkept : forall v, In v (users db) ->
                            exists u0, In u0 (users db) /\ same_account u0 v).
  { intros v Hv. exists v. split; [assumption | apply same_account_refl]. }
  destruct (rq_route rq) eqn:Hr;
    try (left; apply (stored_accounts_persist db rq u);
         [rewrite Hr; discriminate | rewrite Hr; discriminate | exact Hin]).
  - destruct rq as [s m r f up]. cbn in Hr. subst r. unfold actor. cbn.
    revert Hin. run_view.
    repeat (split_match; cbn in * ); intros Hin;
      try (left; now apply Hkept).
    all: apply in_app_or in Hin; destruct Hin as [Hin | [<- | []]];
      [left; now apply Hkept|].
    all: right; cbn; split; [apply next_id_fresh|].
    all: split; [reflexivity|]; split; [|left; split; reflexivity].
    all: try reflexivity.
    all: settle user_by_id_some case_by_id_some.
    all: match goal with
         | H : is_null (load_user ?d ?n) = true |- _ =>
             destruct (load_user d n); [discriminate H | reflexivity]
         end.
  - destruct rq as [s m r f up]. cbn in Hr. subst r. unfold actor. cbn.
    revert Hin. run_view.
    repeat (split_match; cbn in * ); intros Hin;
      try (left; now apply Hkept).
    all: apply in_app_or in Hin; destruct Hin as [Hin | [<- | []]];
      [left; now apply Hkept|].
    all: right; cbn; split; [apply next_id_fresh|].
    all: split; [reflexivity|]; split; [|right; split; reflexivity].
    all: try reflexivity.
    all: settle user_by_id_some case_by_id_some.
    all: match goal with
         | H : is_null (load_user ?d ?n) = true |- _ =>
             destruct (load_user d n); [discriminate H | reflexivity]
         end.
Qed.

(** X4. A stored user is still stored after a request, with the same
    account, unless the request is a Boss posting the deletion of that
    user's id. *)
Theorem users_leave_only_by_boss (db : DB) (rq : Request) (u0 : User) :
  In u0 (users db) ->
  (exists u, In u (users (rp_db (handle db rq))) /\ same_account u0 u)
  \/ (rq_route rq = route_delete_user (u_id u0)
      /\ rq_method rq = POST /\ acts_as_boss db rq = true).
Proof.
  revert u0.
  apply (handle_relates
           (fun a b => forall u0, In u0 (users a) ->
              (exists u, In u (users b) /\ same_account u0 u)
              \/ (rq_route rq = route_delete_user (u_id u0)
                  /\ rq_method rq = POST /\ acts_as_boss a rq = true))
           db rq).
  - intros u0 Hin. left. exists u0. split; [assumption | apply same_account_refl].
  - intros Hpost b c op Hb Hq Hf u0 Hin.
    destruct (Hb u0 Hin) as [(u1 & Hu1 & Hsame) | Hdel]; [|now right].
    destruct op; cbn in Hf, Hq.
    + destruct (is_null name || is_null email); [discriminate|].
      injection Hf as <-. left. exists u1. split; [|assumption].
      cbn. apply in_or_app. now left.
    + destruct (is_null title || is_null content); [discriminate|].
      injection Hf as <-. left. now exists u1.
    + destruct (user_attr_not_null a && is_null v); [discriminate|].
      injection Hf as <-. left.
      exists (if Nat.eqb (u_id u1) uid then user_with a v u1 else u1).
      split; [cbn; now apply (in_map (fun u => if Nat.eqb (u_id u) uid
                                               then user_with a v u else u))|].
      apply (same_account_step u0 u1); [assumption | | | | |];
        destruct (Nat.eqb (u_id u1) uid); try destruct a; auto.
    + injection Hf as <-. left.
      exists (if Nat.eqb (u_id u1) uid then user_with_approved v u1 else u1).
      split; [cbn; now apply (in_map (fun u => if Nat.eqb (u_id u) uid
                                               then user_with_approved v u
                                               else u))|].
      destruct Hq as (_ & -> & _).
      apply (same_account_step u0 u1); [assumption | | | | |];
        destruct (Nat.eqb (u_id u1) uid); auto.
    + destruct (case_attr_not_null a && is_null v); [discriminate|].
      injection Hf as <-. left. now exists u1.
    + injection Hf as <-. destruct Hq as [Hroute Hboss].
      destruct (Nat.eqb_spec (u_id u1) uid) as [Heq | Hne].
      * right. destruct Hsame as (Hid & _). rewrite Hroute.
        repeat split; [congruence | assumption | assumption].
      * left. exists u1. split; [|assumption]. cbn. apply filter_In.
        split; [assumption|]. apply negb_true_iff. now apply Nat.eqb_neq.
    + injection Hf as <-. left. now exists u1.
Qed.

(** *** Case files *)

(** X5. A stored case is still stored after a request, with the same id
    and the same owner key or none, unless the request is a POST of the
    deletion of that case's id by a Boss or by the user the case's owner key
    names. Deleting a user deletes no case, and no request hands a case to
    another owner. *)
Theorem cases_leave_only_by_owner_or_boss (db : DB) (rq : Request) (c0 : Case) :
  In c0 (cases db) ->
  (exists c, In c (cases (rp_db (handle db rq))) /\ same_file c0 c)
  \/ (rq_route rq = route_delete_case (c_id c0)
      /\ rq_method rq = POST
      /\ exists cu c, actor db rq = Some cu
                      /\ first (cases_by_id db (c_id c0)) = Some c
                      /\ (role_eq (u_role cu) BOSS_ROLE = true
                          \/ c_uid c = Some (u_id cu))).
Proof.
  revert c0.
  apply (handle_relates
           (fun a b => forall c0, In c0 (cases a) ->
              (exists c, In c (cases b) /\ same_file c0 c)
              \/ (rq_route rq = route_delete_case (c_id c0)
                  /\ rq_method rq = POST
                  /\ exists cu c, actor a rq = Some cu
                       /\ first (cases_by_id a (c_id c0)) = Some c
                       /\ (role_eq (u_role cu) BOSS_ROLE = true
                           \/ c_uid c = Some (u_id cu))))
           db rq).
  - intros c0 Hin. left. exists c0. unfold same_file. tauto.
  - intros Hpost b c op Hb Hq Hf c0 Hin.
    destruct (Hb c0 Hin) as [(c1 & Hc1 & Hid & Hown) | Hdel]; [|now right].
    destruct op; cbn in Hf, Hq.
    + destruct (is_null name || is_null email); [discriminate|].
      injection Hf as <-. left. exists c1. unfold same_file. tauto.
    + destruct (is_null title || is_null content); [discriminate|].
      injection Hf as <-. left. exists c1. split; [|unfold same_file; tauto].
      cbn. apply in_or_app. now left.
    + destruct (user_attr_not_null a && is_null v); [discriminate|].
      injection Hf as <-. left. exists c1. unfold same_file. tauto.
    + injection Hf as <-. left. exists c1. unfold same_file. tauto.
    + destruct (case_attr_not_null a && is_null v); [discriminate|].
      injection Hf as <-. left.
      exists (if Nat.eqb (c_id c1) cid then case_with a v c1 else c1).
      split; [cbn; now apply (in_map (fun c => if Nat.eqb (c_id c) cid
                                               then case_with a v c else c))|].
      unfold same_file.
      destruct (Nat.eqb (c_id c1) cid); [destruct a|]; cbn; tauto.
    + injection Hf as <-. left. exists (orphan uid c1).
      split; [cbn; now apply in_map|].
      unfold same_file, orphan.
      destruct (opt_eqb Nat.eqb (c_uid c1) (Some uid)); cbn; tauto.
    + injection Hf as <-. destruct Hq as [Hroute Hwho].
      destruct (Nat.eqb_spec (c_id c1) cid) as [Heq | Hne].
      * right. rewrite Hroute, <- Hid, Heq. tauto.
      * left. exists c1. split; [|unfold same_file; tauto]. cbn.
        apply filter_In. split; [assumption|].
        apply negb_true_iff. now apply Nat.eqb_neq.
Qed.

(** ** Sessions, effects and the decorators *)

(** X6. A request to a route behind [login_required] from a client whose
    cookie names no stored user, be it no cookie or the id of a deleted
    user, stores nothing, causes nothing and keeps the cookie. A POST to
    the home page, to logout or to the user list, whose rules take GET
    only, is answered with 405; every other request, a POST to the pending
    list included, is answered with the redirect to the login page that
    carries the route. *)
Theorem anonymous_is_sent_to_login (db : DB) (rq : Request) :
  actor db rq = None ->
  is_protected (rq_route rq) = true ->
  handle db rq
  = mkReply db (rq_session rq)
      (if is_post (rq_method rq) && get_only (rq_route rq)
       then abort 405
       else redirect (url_login_next (rq_route rq)))
      [].
Proof.
  destruct rq as [s m r f up]. unfold actor. cbn. intros Hanon Hprot.
  destruct r; try discriminate Hprot; destruct m; run_view;
    rewrite ?Hanon; reflexivity.
Qed.

(** X7. A client that is logged in cannot register or log in again: both
    registration routes and the login route answer any request of theirs
    with the redirect home, store nothing and keep the session. *)
Theorem logged_in_is_sent_home (db : DB) (rq : Request) (cu : User) :
  actor db rq = Some cu ->
  is_protected (rq_route rq) = false ->
  handle db rq = mkReply db (rq_session rq) (redirect url_index) [].
Proof.
  destruct rq as [s m r f up]. unfold actor. cbn. intros Hcu Hopen.
  destruct r; try discriminate Hopen; run_view; rewrite Hcu; reflexivity.
Qed.

(** X8. A GET stores nothing on any route for any client, and on every
    route but logout it also keeps the session and causes no effect. *)
Theorem get_is_safe (db : DB) (s : option nat) (r : Route) (f : Form)
    (up : bool) :
  let rp := handle db (mkRequest s GET r f up) in
  rp_db rp = db /\
  (r <> route_logout -> rp_session rp = s /\ rp_log rp = []).
Proof.
  cbn zeta. split; [apply get_stores_nothing|].
  intros Hr. destruct r; try congruence; run_view;
    repeat (split_match; cbn); split; reflexivity.
Qed.

(** X9. A request changes the session in two ways only: logout by a
    logged-in client clears it, and a login POST by a client that is not
    logged in sets it to the id of the first stored user with the submitted
    e-mail, when that user's hash accepts the submitted password and the
    user is approved. *)
Theorem session_changes_only_at_login_and_logout (db : DB) (rq : Request) :
  rp_session (handle db rq) = rq_session rq
  \/ (rq_route rq = route_logout /\ actor db rq <> None
      /\ rp_session (handle db rq) = None)
  \/ (rq_route rq = route_login /\ rq_method rq = POST /\ actor db rq = None
      /\ exists user,
           first (users_by_email db (form_get (rq_form rq) "email")) = Some user
           /\ check_password_hash (u_password user)
                (form_get (rq_form rq) "password") = Ok true
           /\ u_approved user = true
           /\ rp_session (handle db rq) = Some (u_id user)).
Proof.
  destruct rq as [s m r f up]. unfold actor. cbn.
  destruct r; run_view;
    repeat (split_match; cbn -[role_eq role_in] in * );
    try (left; reflexivity).
  3: right; left; repeat split; congruence.
  all: right; right; repeat split; try reflexivity.
  all: settle user_by_id_some case_by_id_some.
  all: try match goal with
           | H : is_null (load_user ?d ?n) = true |- _ =>
               destruct (load_user d n); [discriminate H | reflexivity]
           end.
  all: eexists; repeat split; try eassumption; congruence.
Qed.

(** X10. A message is handed to the mail transport only while a Boss posts
    the approval of a stored user, and it is the approval message of that
    user. *)
Theorem mail_only_on_boss_approval (db : DB) (rq : Request) (msg : EmailMessage) :
  In (ev_send msg) (rp_log (handle db rq)) ->
  exists uid target,
    rq_route rq = route_approve uid /\ rq_method rq = POST
    /\ acts_as_boss db rq = true
    /\ first (users_by_id db uid) = Some target
    /\ msg = approval_message target.
Proof.
  destruct rq as [s m r f up]. unfold acts_as_boss, actor. cbn -[role_eq].
  destruct r; run_view;
    repeat (split_match; cbn -[flush_op role_eq role_in] in * );
    intros Hin;
    repeat (destruct Hin as [Hin | Hin]; try discriminate Hin);
    try contradiction.
  all: injection Hin as <-.
  all: settle user_by_id_some case_by_id_some.
  all: match goal with
       | H : first (users_by_id _ ?k) = Some ?t |- _ => exists k, t
       end.
  all: repeat split; first [reflexivity | assumption | congruence].
Qed.

(** ** Registration, approval and login together *)

Lemma opt_string_eqb_refl (e : option string) : opt_eqb String.eqb e e = true.
Proof. destruct e; cbn; [apply String.eqb_refl | reflexivity]. Qed.

Lemma first_none_nil {A} (l : list A) : first l = None -> l = [].
Proof. destruct l; [reflexivity | discriminate]. Qed.

Lemma first_app_some {A} (l1 l2 : list A) (x : A) :
  first l1 = Some x -> first (l1 ++ l2) = Some x.
Proof. destruct l1; [discriminate | cbn; auto]. Qed.

(** A new row with a fresh e-mail is the one its e-mail finds. *)
Lemma new_user_found_by_email (db : DB) (cs : list Case) (u : User) :
  first (users_by_email db (u_email u)) = None ->
  first (users_by_email (mkDB (users db ++ [u]) cs) (u_email u)) = Some u.
Proof.
  intros Hfree. apply first_none_nil in Hfree.
  unfold users_by_email in *. cbn. rewrite filter_app, Hfree. cbn.
  now rewrite opt_string_eqb_refl.
Qed.

Lemma load_user_after_append (db : DB) (cs : list Case) (new : User)
    (k : nat) (cu : User) :
  load_user db k = Some cu ->
  load_user (mkDB (users db ++ [new]) cs) k = Some cu.
Proof.
  unfold load_user, users_by_id. cbn. intros H. rewrite filter_app.
  now apply first_app_some.
Qed.

Lemma load_user_after_update (db : DB) (cs : list Case) (g : User -> User)
    (k : nat) :
  (forall u, u_id (g u) = u_id u) ->
  load_user (mkDB (map g (users db)) cs) k = option_map g (load_user db k).
Proof.
  intros Hg. unfold load_user, users_by_id. cbn.
  rewrite (filter_id_map g k (users db) Hg).
  destruct (filter (fun u => Nat.eqb (u_id u) k) (users db)); reflexivity.
Qed.

(** X11. Guest registration does not log the new user in, but the account
    is usable at once: when the stored hash accepts the registered
    password, a login with the registered e-mail and password on the store
    the registration leaves behind calls [login_user] for the new id. *)
Theorem guest_can_log_in_at_once (db : DB) (s s1 : option nat) (f f1 : Form)
    (up up1 : bool) (h : string) :
  actor db (mkRequest s POST route_register_guest f up) = None ->
  generate_password_hash (form_get f "password") = Ok h ->
  first (users_by_email db (form_get f "email")) = None ->
  form_get f "name" <> None -> form_get f "email" <> None ->
  form_get f1 "email" = form_get f "email" ->
  check_password_hash h (form_get f1 "password") = Ok true ->
  let reg := handle db (mkRequest s POST route_register_guest f up) in
  let new_id := next_id (map u_id (users db)) in
  actor (rp_db reg) (mkRequest s1 POST route_login f1 up1) = None ->
  rp_session reg = s /\ rp_log reg = [] /\
  handle (rp_db reg) (mkRequest s1 POST route_login f1 up1)
  = mkReply (rp_db reg) (Some new_id) (redirect url_index)
            [ev_login_user new_id].
Proof.
  intros Hanon Hh Hfree Hname Hemail Hsame Hcheck reg new_id. subst reg new_id.
  rewrite (register_guest_creates db s f up h Hanon Hh Hfree Hname Hemail).
  cbn [rp_db rp_session rp_log]. intros Hanon1.
  split; [reflexivity | split; [reflexivity|]].
  set (new := mkUser (next_id (map u_id (users db))) (form_get f "name")
                     (form_get f "last_name") h (form_get f "email")
                     (Some GUEST_ROLE) None true) in *.
  apply (login_succeeds _ s1 f1 up1 new Hanon1); [| exact Hcheck | reflexivity].
  rewrite Hsame. apply (new_user_found_by_email db (cases db) new Hfree).
Qed.

(** X12. After a detective registration the same login is refused with the
    plain redirect to the login page, although the password is right, and
    the new user is on the pending list a Boss is shown. *)
Theorem detective_waits_on_pending_list (db : DB) (s s1 : option nat)
    (f f1 : Form) (up up1 up2 : bool) (h : string) (k : nat) (boss : User)
    (f2 : Form) :
  actor db (mkRequest s POST route_register_detective f up) = None ->
  generate_password_hash (form_get f "password") = Ok h ->
  first (users_by_email db (form_get f "email")) = None ->
  form_get f "name" <> None -> form_get f "email" <> None ->
  form_get f1 "email" = form_get f "email" ->
  check_password_hash h (form_get f1 "password") = Ok true ->
  load_user db k = Some boss -> role_eq (u_role boss) BOSS_ROLE = true ->
  let reg := handle db (mkRequest s POST route_register_detective f up) in
  let new := mkUser (next_id (map u_id (users db))) (form_get f "name")
                    (form_get f "last_name") h (form_get f "email")
                    (Some DETECTIVE_ROLE) (form_get f "detective_id") false in
  actor (rp_db reg) (mkRequest s1 POST route_login f1 up1) = None ->
  handle (rp_db reg) (mkRequest s1 POST route_login f1 up1)
  = mkReply (rp_db reg) s1 (redirect (url_login false)) []
  /\
  exists pending_users,
    rp_response (handle (rp_db reg) (mkRequest (Some k) GET route_approvals f2 up2))
    = render_template (users_html pending_users true)
    /\ In new pending_users.
Proof.
  intros Hanon Hh Hfree Hname Hemail Hsame Hcheck Hboss Hrole reg new.
  subst reg.
  rewrite (register_detective_creates db s f up h Hanon Hh Hfree Hname Hemail).
  cbn [rp_db]. fold new. intros Hanon1. split.
  - apply (failed_login_reply _ s1 f1 up1 NotApproved Hanon1).
    exists new. split; [|split; [exact Hcheck | reflexivity]].
    rewrite Hsame. apply (new_user_found_by_email db (cases db) new Hfree).
  - run_view.
    rewrite (load_user_after_append db (cases db) new k boss Hboss).
    cbn -[role_eq]. rewrite Hrole. cbn.
    eexists. split; [reflexivity|].
    unfold users_by_approved. cbn. apply filter_In. split; [|reflexivity].
    apply in_or_app. right. now left.
Qed.

(** X13. Once a Boss has approved a stored user, the pending list the Boss
    is shown next holds no user with that id. *)
Theorem approved_leaves_pending_list (db : DB) (k uid : nat) (boss target : User)
    (f f1 : Form) (up up1 : bool) :
  load_user db k = Some boss -> role_eq (u_role boss) BOSS_ROLE = true ->
  first (users_by_id db uid) = Some target ->
  let db1 := rp_db (handle db (mkRequest (Some k) POST (route_approve uid) f up)) in
  exists pending_users,
    rp_response (handle db1 (mkRequest (Some k) GET route_approvals f1 up1))
    = render_template (users_html pending_users true)
    /\ (forall u, In u pending_users ->
                  u_id u <> uid /\ In u (users db) /\ u_approved u = false).
Proof.
  intros Hboss Hrole Htarget db1. subst db1.
  rewrite (approve_as_boss db k uid boss target f up Hboss Hrole Htarget).
  cbn [rp_db]. run_view.
  rewrite (load_user_after_update db (cases db)
             (fun u => if Nat.eqb (u_id u) uid
                       then user_with_approved true u else u) k)
    by (intros u; destruct (Nat.eqb (u_id u) uid); reflexivity).
  rewrite Hboss. cbn -[role_eq].
  assert (Hrole1 : role_eq (u_role (if Nat.eqb (u_id boss) uid
                                    then user_with_approved true boss
                                    else boss)) BOSS_ROLE = true)
    by (destruct (Nat.eqb (u_id boss) uid); exact Hrole).
  rewrite Hrole1. cbn.
  eexists. split; [reflexivity|].
  intros u Hin. unfold users_by_approved in Hin. cbn in Hin.
  apply filter_In in Hin. destruct Hin as [Hin Hflag].
  apply in_map_iff in Hin. destruct Hin as (v & Hv & Hvin).
  destruct (Nat.eqb_spec (u_id v) uid) as [Heq | Hne].
  - subst u. cbn in Hflag. discriminate.
  - subst u. repeat split; [assumption | assumption |].
    destruct (u_approved v); [discriminate Hflag | reflexivity].
Qed.

(** ** Cases: create, read, delete *)

Lemma no_case_has_next_id (l : list Case) :
  filter (fun c => Nat.eqb (c_id c) (next_id (map c_id l))) l = [].
Proof.
  apply first_none_nil. apply first_filter_none. intros c Hin.
  apply Nat.eqb_neq. intros Heq.
  apply (next_id_fresh (map c_id l)). rewrite <- Heq. now apply in_map.
Qed.

(** X14. A case a Detective or Boss creates with a title and a content is
    stored last, under a new id, owned by its creator; the store it leaves
    behind shows it on its case page to every logged-in user and lists it
    last on the home page. *)
Theorem new_case_can_be_read (db : DB) (k k1 : nat) (cu cu1 : User)
    (f f1 : Form) (up up1 : bool) :
  load_user db k = Some cu ->
  role_in (u_role cu) [DETECTIVE_ROLE; BOSS_ROLE] = true ->
  form_get f "title" <> None -> form_get f "content" <> None ->
  let created := handle db (mkRequest (Some k) POST route_new_case f up) in
  let new := mkCase (next_id (map c_id (cases db))) (Some k)
                    (form_get f "title") (form_get f "description")
                    (form_get f "content") in
  load_user (rp_db created) k1 = Some cu1 ->
  rp_db created = mkDB (users db) (cases db ++ [new]) /\
  rp_response (handle (rp_db created)
                 (mkRequest (Some k1) GET (route_case_page (c_id new)) f1 up1))
  = render_template (case_page_html new) /\
  rp_response (handle (rp_db created) (mkRequest (Some k1) GET route_index f1 up1))
  = render_template (index_html (cases db ++ [new])).
Proof.
  intros Hcu Hstaff Htitle Hcontent created new. subst created.
  destruct (load_user_some db k cu Hcu) as [_ Hk].
  assert (Hreply : rp_db (handle db (mkRequest (Some k) POST route_new_case f up))
                   = mkDB (users db) (cases db ++ [new])).
  { run_view. rewrite Hcu. cbn -[role_in]. rewrite Hstaff. cbn. subst new.
    rewrite Hk.
    destruct (form_get f "title"); [|congruence].
    destruct (form_get f "content"); [|congruence]. reflexivity. }
  rewrite Hreply. intros Hcu1. split; [reflexivity|]. split.
  - run_view. rewrite Hcu1. cbn. unfold cases_by_id. cbn.
    rewrite filter_app, no_case_has_next_id. cbn.
    now rewrite Nat.eqb_refl.
  - run_view. rewrite Hcu1. reflexivity.
Qed.

Lemma delete_case_allowed (db : DB) (k cid : nat) (cu : User) (c : Case)
    (f : Form) (up : bool) :
  load_user db k = Some cu ->
  first (cases_by_id db cid) = Some c ->
  role_eq (u_role cu) BOSS_ROLE = true \/ c_uid c = Some (u_id cu) ->
  handle db (mkRequest (Some k) POST (route_delete_case cid) f up)
  = mkReply (mkDB (users db)
                  (filter (fun c => negb (Nat.eqb (c_id c) cid)) (cases db)))
            (Some k) (redirect url_index) [].
Proof.
  intros Hcu Hc Hmay. run_view. rewrite Hcu. cbn -[role_eq]. rewrite Hc.
  destruct (case_by_id_some db cid c Hc) as [_ Hid].
  destruct (role_eq (u_role cu) BOSS_ROLE) eqn:Hboss; cbn.
  - now rewrite Hid.
  - destruct Hmay as [Hb | Hown]; [discriminate|].
    rewrite (owner_is_actor db k cu c Hcu Hown). cbn. now rewrite Hid.
Qed.

(** X15. After the owner or a Boss has deleted a stored case, its case
    page is a 404 for every logged-in user, the cases with other ids are
    stored as before, and no user is touched. *)
Theorem deleted_case_is_gone (db : DB) (k k1 cid : nat) (cu cu1 : User)
    (c : Case) (f f1 : Form) (up up1 : bool) :
  load_user db k = Some cu ->
  first (cases_by_id db cid) = Some c ->
  role_eq (u_role cu) BOSS_ROLE = true \/ c_uid c = Some (u_id cu) ->
  let db1 := rp_db (handle db (mkRequest (Some k) POST (route_delete_case cid) f up)) in
  load_user db1 k1 = Some cu1 ->
  rp_response (handle db1 (mkRequest (Some k1) GET (route_case_page cid) f1 up1))
  = abort 404 /\
  users db1 = users db /\
  (forall c1, c_id c1 <> cid -> (In c1 (cases db1) <-> In c1 (cases db))) /\
  (forall c1, In c1 (cases db1) -> c_id c1 <> cid).
Proof.
  intros Hcu Hc Hmay db1. subst db1.
  rewrite (delete_case_allowed db k cid cu c f up Hcu Hc Hmay). cbn [rp_db].
  intros Hcu1.
  split; [|split; [reflexivity | split; [intros c1 Hne; split|intros c1 H]]].
  - run_view. rewrite Hcu1. cbn. unfold cases_by_id. cbn.
    assert (Hnone : first (filter (fun c0 => Nat.eqb (c_id c0) cid)
                             (filter (fun c0 => negb (Nat.eqb (c_id c0) cid))
                                (cases db))) = None).
    { apply first_filter_none. intros x Hx. apply filter_In in Hx.
      destruct Hx as [_ Hx]. now apply negb_true_iff in Hx. }
    rewrite Hnone. reflexivity.
  - cbn. intros Hin. apply filter_In in Hin. tauto.
  - cbn. intros Hin. apply filter_In. split; [assumption|].
    apply negb_true_iff. now apply Nat.eqb_neq.
  - cbn in H. apply filter_In in H. destruct H as [_ H].
    apply negb_true_iff in H. now apply Nat.eqb_neq.
Qed.

(** ** Users: delete, approve again, edit *)

Lemma delete_user_as_boss (db : DB) (k uid : nat) (boss target : User)
    (f : Form) (up : bool) :
  load_user db k = Some boss -> role_eq (u_role boss) BOSS_ROLE = true ->
  first (users_by_id db uid) = Some target ->
  handle db (mkRequest (Some k) POST (route_delete_user uid) f up)
  = mkReply (mkDB (filter (fun u => negb (Nat.eqb (u_id u) uid)) (users db))
                  (map (orphan uid) (cases db)))
            (Some k) (redirect url_users) [].
Proof.
  intros Hboss Hrole Htarget. run_view. rewrite Hboss. cbn -[role_eq].
  rewrite Hrole. cbn. rewrite Htarget. cbn.
  now rewrite (user_by_id_some db uid target Htarget).
Qed.

(** X16. After a Boss has deleted a stored user (their own record
    included), no user has that id, a cookie that names it is the cookie of
    an anonymous client, whom the home page sends to the login, and every
    case is still stored with its id, title, description and content. *)
Theorem deleted_user_is_logged_out (db : DB) (k uid : nat) (boss target : User)
    (f f1 : Form) (up up1 : bool) :
  load_user db k = Some boss -> role_eq (u_role boss) BOSS_ROLE = true ->
  first (users_by_id db uid) = Some target ->
  let db1 := rp_db (handle db (mkRequest (Some k) POST (route_delete_user uid) f up)) in
  load_user db1 uid = None /\
  handle db1 (mkRequest (Some uid) GET route_index f1 up1)
  = mkReply db1 (Some uid) (redirect (url_login_next route_index)) [] /\
  map (fun c => (c_id c, c_title c, c_description c, c_content c)) (cases db1)
  = map (fun c => (c_id c, c_title c, c_description c, c_content c)) (cases db).
Proof.
  intros Hboss Hrole Htarget db1. subst db1.
  rewrite (delete_user_as_boss db k uid boss target f up Hboss Hrole Htarget).
  cbn [rp_db].
  assert (Hgone : load_user
                    (mkDB (filter (fun u => negb (Nat.eqb (u_id u) uid)) (users db))
                          (map (orphan uid) (cases db))) uid = None).
  { unfold load_user, users_by_id. cbn. apply first_filter_none.
    intros x Hx. apply filter_In in Hx. destruct Hx as [_ Hx].
    now apply negb_true_iff in Hx. }
  split; [exact Hgone | split].
  - run_view. rewrite Hgone. reflexivity.
  - cbn. rewrite map_map. apply map_ext. intros c. unfold orphan.
    destruct (opt_eqb Nat.eqb (c_uid c) (Some uid)); reflexivity.
Qed.

Lemma user_with_approved_same (u : User) :
  u_approved u = true -> user_with_approved true u = u.
Proof. destruct u; cbn. now intros ->. Qed.

(** X17. The approve view does not ask whether the user is pending: when
    a Boss approves a user who is approved already, the store stays as it
    is and the approval message is sent once more. *)
Theorem approving_again_sends_again (db : DB) (k uid : nat)
    (boss target : User) (f : Form) (up : bool) :
  load_user db k = Some boss -> role_eq (u_role boss) BOSS_ROLE = true ->
  first (users_by_id db uid) = Some target ->
  (forall u, In u (users db) -> u_id u = uid -> u_approved u = true) ->
  let rp := handle db (mkRequest (Some k) POST (route_approve uid) f up) in
  rp_db rp = db /\
  filter is_send (rp_log rp) = [ev_send (approval_message target)].
Proof.
  intros Hboss Hrole Htarget Hall rp. subst rp.
  rewrite (approve_as_boss db k uid boss target f up Hboss Hrole Htarget).
  cbn [rp_db rp_log]. split.
  - destruct db as [us cs]. cbn in *. f_equal.
    rewrite <- (map_id us) at 2. apply map_ext_in. intros u Hin.
    destruct (Nat.eqb_spec (u_id u) uid) as [Heq | _]; [|reflexivity].
    apply user_with_approved_same. now apply Hall.
  - destruct up; reflexivity.
Qed.

Lemma user_page_post_reply (db : DB) (k uid : nat) (cu target : User)
    (f : Form) (up : bool) (n e : string) :
  load_user db k = Some cu ->
  first (users_by_id db uid) = Some target ->
  form_get f "name" = Some n -> form_get f "email" = Some e ->
  handle db (mkRequest (Some k) POST (route_user_page uid) f up)
  = mkReply (mkDB (map (edited_user uid (Some n) (form_get f "last_name") (Some e))
                       (users db))
                  (cases db))
            (Some k) (redirect (url_user_page uid)) [].
Proof.
  intros Hcu Htarget Hn He. run_view. rewrite Hcu. cbn. rewrite Htarget. cbn.
  rewrite (user_by_id_some db uid target Htarget), Hn, He. cbn.
  f_equal. f_equal. rewrite !map_map. apply map_ext. intros u.
  unfold edited_user. destruct (Nat.eqb (u_id u) uid) eqn:Hid; cbn;
    rewrite ?Hid; cbn; rewrite ?Hid; reflexivity.
Qed.

(** X18. The profile form is applied for every logged-in actor, whatever
    their role and whoever the target is: a POST with a name and an e-mail
    replaces name, last name and e-mail of the stored user with that id,
    leaves its id, password hash, role, detective id and approval and every
    other user and case as they are, and redirects to the user page. *)
Theorem any_actor_edits_any_profile (db : DB) (k uid : nat) (cu target : User)
    (f : Form) (up : bool) (n e : string) :
  load_user db k = Some cu ->
  first (users_by_id db uid) = Some target ->
  form_get f "name" = Some n -> form_get f "email" = Some e ->
  let rp := handle db (mkRequest (Some k) POST (route_user_page uid) f up) in
  rp_response rp = redirect (url_user_page uid) /\
  load_user (rp_db rp) uid
  = Some (mkUser uid (Some n) (form_get f "last_name") (u_password target)
                 (Some e) (u_role target) (u_detective_id target)
                 (u_approved target)) /\
  (forall k1, k1 <> uid -> load_user (rp_db rp) k1 = load_user db k1) /\
  cases (rp_db rp) = cases db /\
  rp_session rp = Some k /\ rp_log rp = [].
Proof.
  intros Hcu Htarget Hn He rp. subst rp.
  rewrite (user_page_post_reply db k uid cu target f up n e Hcu Htarget Hn He).
  cbn [rp_db rp_response rp_session rp_log cases].
  assert (Hg : forall u, u_id (edited_user uid (Some n) (form_get f "last_name")
                                 (Some e) u) = u_id u).
  { intros u. unfold edited_user. destruct (Nat.eqb (u_id u) uid); reflexivity. }
  repeat split.
  - rewrite (load_user_after_update db (cases db) _ uid Hg).
    unfold load_user. rewrite Htarget. cbn. unfold edited_user.
    rewrite (user_by_id_some db uid target Htarget), Nat.eqb_refl. reflexivity.
  - intros k1 Hne.
    rewrite (load_user_after_update db (cases db) _ k1 Hg).
    destruct (load_user db k1) as [v|] eqn:Hv; [|reflexivity]. cbn.
    unfold edited_user. destruct (load_user_some db k1 v Hv) as [_ ->].
    destruct (Nat.eqb_spec k1 uid); [contradiction | reflexivity].
Qed.

(** X19. The profile form checks no uniqueness: when a logged-in actor
    posts for one stored user the e-mail of another, both are stored with
    that e-mail. *)
Theorem edit_can_duplicate_email (db : DB) (k uid : nat) (cu target other : User)
    (f : Form) (up : bool) (n e : string) :
  load_user db k = Some cu ->
  first (users_by_id db uid) = Some target ->
  load_user db (u_id other) = Some other ->
  u_id other <> uid -> u_email other = Some e ->
  form_get f "name" = Some n -> form_get f "email" = Some e ->
  let db1 := rp_db (handle db (mkRequest (Some k) POST (route_user_page uid) f up)) in
  exists edited,
    load_user db1 uid = Some edited /\ u_email edited = Some e /\
    load_user db1 (u_id other) = Some other.
Proof.
  intros Hcu Htarget Hother Hne Hemail Hn He db1. subst db1.
  rewrite (user_page_post_reply db k uid cu target f up n e Hcu Htarget Hn He).
  cbn [rp_db].
  assert (Hg : forall u, u_id (edited_user uid (Some n) (form_get f "last_name")
                                 (Some e) u) = u_id u).
  { intros u. unfold edited_user. destruct (Nat.eqb (u_id u) uid); reflexivity. }
  rewrite !(load_user_after_update db (cases db) _ _ Hg).
  unfold load_user at 1. rewrite Htarget, Hother. cbn.
  eexists. split; [reflexivity|]. split.
  - unfold edited_user.
    rewrite (user_by_id_some db uid target Htarget), Nat.eqb_refl. reflexivity.
  - unfold edited_user.
    destruct (Nat.eqb_spec (u_id other) uid); [contradiction | reflexivity].
Qed.

Lemma case_page_post_reply (db : DB) (k cid : nat) (cu : User) (c : Case)
    (f : Form) (up : bool) (t ct : string) :
  load_user db k = Some cu ->
  first (cases_by_id db cid) = Some c ->
  form_get f "title" = Some t -> form_get f "content" = Some ct ->
  handle db (mkRequest (Some k) POST (route_case_page cid) f up)
  = mkReply (mkDB (users db)
                  (map (edited_case cid (Some t) (form_get f "description") (Some ct))
                       (cases db)))
            (Some k) (redirect (url_case_page cid)) [].
Proof.
  intros Hcu Hc Ht Hct. run_view. rewrite Hcu. cbn. rewrite Hc. cbn.
  destruct (case_by_id_some db cid c Hc) as [_ Hid].
  rewrite Hid, Ht, Hct. cbn.
  f_equal. f_equal. rewrite !map_map. apply map_ext. intros x.
  unfold edited_case. destruct (Nat.eqb (c_id x) cid) eqn:Hx; cbn;
    rewrite ?Hx; cbn; rewrite ?Hx; reflexivity.
Qed.

(** X20. The case form is applied for every logged-in actor, a Guest
    included and whoever owns the case: a POST with a title and a content
    replaces title, description and content of the stored case with that
    id, keeps its id and owner, touches no user, and the case page then
    shows the new text. *)
Theorem any_actor_edits_any_case (db : DB) (k cid : nat) (cu : User) (c : Case)
    (f f1 : Form) (up up1 : bool) (t ct : string) :
  load_user db k = Some cu ->
  first (cases_by_id db cid) = Some c ->
  form_get f "title" = Some t -> form_get f "content" = Some ct ->
  let rp := handle db (mkRequest (Some k) POST (route_case_page cid) f up) in
  let edited := mkCase cid (c_uid c) (Some t) (form_get f "description") (Some ct) in
  rp_response rp = redirect (url_case_page cid) /\
  users (rp_db rp) = users db /\
  cases (rp_db rp)
  = map (edited_case cid (Some t) (form_get f "description") (Some ct)) (cases db) /\
  rp_response (handle (rp_db rp) (mkRequest (Some k) GET (route_case_page cid) f1 up1))
  = render_template (case_page_html edited).
Proof.
  intros Hcu Hc Ht Hct rp edited. subst rp edited.
  rewrite (case_page_post_reply db k cid cu c f up t ct Hcu Hc Ht Hct).
  cbn [rp_db rp_response users cases]. repeat split.
  run_view. unfold load_user, users_by_id in *. cbn. rewrite Hcu. cbn.
  unfold cases_by_id in *. cbn.
  assert (Hfilter : forall l,
             filter (fun c0 => Nat.eqb (c_id c0) cid)
               (map (edited_case cid (Some t) (form_get f "description") (Some ct)) l)
             = map (edited_case cid (Some t) (form_get f "description") (Some ct))
                 (filter (fun c0 => Nat.eqb (c_id c0) cid) l)).
  { induction l as [|x l IH]; cbn; [reflexivity|].
    unfold edited_case at 1. destruct (Nat.eqb (c_id x) cid) eqn:Hx; cbn;
      rewrite Hx; cbn; now rewrite IH. }
  rewrite Hfilter.
  destruct (filter (fun c0 => Nat.eqb (c_id c0) cid) (cases db)) as [|x l] eqn:Hf;
    [discriminate|].
  cbn in Hc. injection Hc as ->. cbn. unfold edited_case.
  assert (Hid : Nat.eqb (c_id c) cid = true).
  { assert (Hin : In c (filter (fun c0 => Nat.eqb (c_id c0) cid) (cases db)))
      by (rewrite Hf; now left).
    apply filter_In in Hin. tauto. }
  rewrite Hid. apply Nat.eqb_eq in Hid. now rewrite Hid.
Qed.

(** ** Forms that leave a required field out *)

(** X21. A profile form without a name or without an e-mail, and a case
    form without a title or without a content, posted for a stored target,
    end in an [IntegrityError] at the commit: the answer is a server error
    and nothing of the form is stored, the fields that were present
    included. *)
Theorem edit_without_required_field_raises (db : DB) (k id : nat) (cu : User)
    (f : Form) (up : bool) :
  load_user db k = Some cu ->
  (first (users_by_id db id) <> None ->
   form_get f "name" = None \/ form_get f "email" = None ->
   handle db (mkRequest (Some k) POST (route_user_page id) f up)
   = mkReply db (Some k) (internal_server_error IntegrityError) [])
  /\
  (first (cases_by_id db id) <> None ->
   form_get f "title" = None \/ form_get f "content" = None ->
   handle db (mkRequest (Some k) POST (route_case_page id) f up)
   = mkReply db (Some k) (internal_server_error IntegrityError) []).
Proof.
  intros Hcu. split; intros Hstored Hmissing; run_view; rewrite Hcu; cbn.
  - destruct (first (users_by_id db id)) as [target|]; [|congruence]. cbn.
    destruct (form_get f "name"), (form_get f "email"); cbn;
      try reflexivity.
    destruct Hmissing; discriminate.
  - destruct (first (cases_by_id db id)) as [c|]; [|congruence]. cbn.
    destruct (form_get f "title"), (form_get f "content"); cbn;
      try reflexivity.
    destruct Hmissing; discriminate.
Qed.

(** X22. A registration form without a name or without an e-mail, from a
    client that is not logged in and with a password that hashes, and a
    case form without a title or without a content from a Detective or
    Boss, end in an [IntegrityError]: the answer is a server error and no
    row is added. *)
Theorem create_without_required_field_raises (db : DB) (s : option nat)
    (f : Form) (up : bool) :
  (forall r h,
      r = route_register_guest \/ r = route_register_detective ->
      actor db (mkRequest s POST r f up) = None ->
      generate_password_hash (form_get f "password") = Ok h ->
      first (users_by_email db (form_get f "email")) = None ->
      form_get f "name" = None \/ form_get f "email" = None ->
      handle db (mkRequest s POST r f up)
      = mkReply db s (internal_server_error IntegrityError) [])
  /\
  (forall cu,
      actor db (mkRequest s POST route_new_case f up) = Some cu ->
      role_in (u_role cu) [DETECTIVE_ROLE; BOSS_ROLE] = true ->
      form_get f "title" = None \/ form_get f "content" = None ->
      handle db (mkRequest s POST route_new_case f up)
      = mkReply db s (internal_server_error IntegrityError) []).
Proof.
  unfold actor. cbn -[role_in]. split.
  - intros r h Hr Hanon Hh Hfree Hmissing.
    destruct Hr as [-> | ->]; run_view; rewrite Hanon; cbn;
      rewrite Hh; cbn; rewrite Hfree; cbn;
      destruct (form_get f "name"), (form_get f "email"); cbn;
      try reflexivity; destruct Hmissing; discriminate.
  - intros cu Hcu Hstaff Hmissing. run_view. rewrite Hcu. cbn -[role_in].
    rewrite Hstaff. cbn.
    destruct (form_get f "title"), (form_get f "content"); cbn;
      try reflexivity; destruct Hmissing; discriminate.
Qed.

(** X23. The password is hashed before the e-mail is looked up, and
    checked only after a user was found: when the hashing call raises, a
    registration POST from a client that is not logged in ends in a server
    error with that exception, whether the e-mail is taken or not; when the
    checking call raises, so does the login. Nothing is stored and no
    session is opened. *)
Theorem bcrypt_errors_are_fatal (db : DB) (s : option nat) (f : Form)
    (up : bool) (e : PyError) :
  (forall r,
      r = route_register_guest \/ r = route_register_detective ->
      actor db (mkRequest s POST r f up) = None ->
      generate_password_hash (form_get f "password") = Raise e ->
      handle db (mkRequest s POST r f up)
      = mkReply db s (internal_server_error e) [])
  /\
  (forall user,
      actor db (mkRequest s POST route_login f up) = None ->
      first (users_by_email db (form_get f "email")) = Some user ->
      check_password_hash (u_password user) (form_get f "password") = Raise e ->
      handle db (mkRequest s POST route_login f up)
      = mkReply db s (internal_server_error e) []).
Proof.
  unfold actor. cbn. split.
  - intros r [-> | ->] Hanon Hh; run_view; rewrite Hanon; cbn;
      rewrite Hh; reflexivity.
  - intros user Hanon Hfound Hcheck. run_view. rewrite Hanon. cbn.
    rewrite Hfound. cbn. rewrite Hcheck. reflexivity.
Qed.

(** ** E-mail addresses *)

(** X24. Registration keeps e-mail addresses apart: if no two stored users
    share an e-mail, the same holds after any request to either
    registration route. *)
Theorem registration_keeps_emails_unique (db : DB) (rq : Request) :
  rq_route rq = route_register_guest
  \/ rq_route rq = route_register_detective ->
  NoDup (map u_email (users db)) ->
  NoDup (map u_email (users (rp_db (handle db rq)))).
Proof.
  destruct rq as [s m r f up]. cbn. intros Hr Hnd.
  assert (Hfresh : first (users_by_email db (form_get f "email")) = None ->
                   ~ In (form_get f "email") (map u_email (users db))).
  { intros Hfree Hin. apply in_map_iff in Hin. destruct Hin as (u & Hu & Hin).
    unfold users_by_email in Hfree. rewrite first_filter_none in Hfree.
    specialize (Hfree u Hin). rewrite Hu, opt_string_eqb_refl in Hfree.
    discriminate. }
  destruct Hr as [-> | ->]; run_view;
    repeat (split_match; cbn in * ); try assumption;
    rewrite map_app; cbn; apply NoDup_snoc; auto.
Qed.

(** ** The list pages *)

(** X25. The home page shows every logged-in actor all cases in stored
    order, whatever the role; the user list shows all users to a Detective
    or Boss and sends anyone else home; the pending list shows a Boss the
    users that are not approved, in stored order, and sends anyone else
    home. None of them stores anything. *)
Theorem list_pages_by_role (db : DB) (k : nat) (cu : User) (f : Form)
    (up : bool) :
  load_user db k = Some cu ->
  let get r := handle db (mkRequest (Some k) GET r f up) in
  get route_index
  = mkReply db (Some k) (render_template (index_html (cases db))) [] /\
  get route_users
  = mkReply db (Some k)
      (if role_in (u_role cu) [DETECTIVE_ROLE; BOSS_ROLE]
       then render_template (users_html (users db) false)
       else redirect url_index) [] /\
  get route_approvals
  = mkReply db (Some k)
      (if role_eq (u_role cu) BOSS_ROLE
       then render_template
              (users_html (filter (fun u => negb (u_approved u)) (users db)) true)
       else redirect url_index) [].
Proof.
  intros Hcu get. subst get. repeat split; run_view; rewrite Hcu;
    cbn -[role_in role_eq].
  - reflexivity.
  - destruct (role_in (u_role cu) [DETECTIVE_ROLE; BOSS_ROLE]); reflexivity.
  - destruct (role_eq (u_role cu) BOSS_ROLE); reflexivity.
Qed.

(** ** GET and POST on the mutating routes, in full *)

(** C8, as the code has it. For a logged-in actor and the six mutating
    routes: a GET stores nothing; on the user-delete, user-approve and
    case-delete routes it redirects home, on the case-create route it shows
    the form to a Detective or Boss and redirects anyone else home, on the
    user and case pages it shows the page, a 404 for a missing target, and
    for a user page a redirect home to an actor who is neither Detective,
    Boss nor the user. A POST that the role check refuses (user delete,
    user approve, case create, and case delete of a stored case owned by
    someone else) and a POST whose target is missing (user delete, user
    approve, and case delete by a Boss) store nothing and redirect home.
    A POST that is admitted performs the mutation: the Boss's user delete
    removes the user, the Boss's approval stores the user approved, a
    Detective's or Boss's complete case form appends the case, the owner's
    or Boss's case delete removes the case, and a complete profile or case
    form rewrites the stored target. *)
Theorem mutating_route_convention (db : DB) (k uid cid : nat) (cu : User)
    (f : Form) (up : bool) :
  load_user db k = Some cu ->
  let get r := handle db (mkRequest (Some k) GET r f up) in
  let post r := handle db (mkRequest (Some k) POST r f up) in
  let home := mkReply db (Some k) (redirect url_index) [] in
  let boss := role_eq (u_role cu) BOSS_ROLE in
  let staff := role_in (u_role cu) [DETECTIVE_ROLE; BOSS_ROLE] in
  (forall r, In r (mutating_routes uid cid) -> rp_db (get r) = db) /\
  get (route_delete_user uid) = home /\
  get (route_approve uid) = home /\
  get (route_delete_case cid) = home /\
  rp_response (get route_new_case)
    = (if staff then render_template new_case_html else redirect url_index) /\
  rp_response (get (route_user_page uid))
    = match first (users_by_id db uid) with
      | None => abort 404
      | Some user =>
          if staff || Nat.eqb k uid
          then render_template (user_page_html user)
          else redirect url_index
      end /\
  rp_response (get (route_case_page cid))
    = match first (cases_by_id db cid) with
      | None => abort 404
      | Some case => render_template (case_page_html case)
      end /\
  (boss = false -> post (route_delete_user uid) = home) /\
  (boss = false -> post (route_approve uid) = home) /\
  (staff = false -> post route_new_case = home) /\
  (boss = false ->
   forall case, first (cases_by_id db cid) = Some case ->
                c_uid case <> Some k ->
                post (route_delete_case cid) = home) /\
  (first (users_by_id db uid) = None -> post (route_delete_user uid) = home) /\
  (first (users_by_id db uid) = None -> post (route_approve uid) = home) /\
  (boss = true -> first (cases_by_id db cid) = None ->
   post (route_delete_case cid) = home) /\
  (boss = true -> first (users_by_id db uid) <> None ->
   users (rp_db (post (route_delete_user uid)))
   = filter (fun u => negb (Nat.eqb (u_id u) uid)) (users db)
   /\ rp_response (post (route_delete_user uid)) = redirect url_users) /\
  (boss = true ->
   forall target, first (users_by_id db uid) = Some target ->
     load_user (rp_db (post (route_approve uid))) uid
     = Some (mkUser (u_id target) (u_name target) (u_last_name target)
                    (u_password target) (u_email target) (u_role target)
                    (u_detective_id target) true)
     /\ rp_response (post (route_approve uid)) = redirect url_approvals) /\
  (staff = true ->
   form_get f "title" <> None -> form_get f "content" <> None ->
   cases (rp_db (post route_new_case))
   = cases db ++ [mkCase (next_id (map c_id (cases db))) (Some k)
                         (form_get f "title") (form_get f "description")
                         (form_get f "content")]
   /\ rp_response (post route_new_case) = redirect url_index) /\
  (forall case, first (cases_by_id db cid) = Some case ->
     boss = true \/ c_uid case = Some k ->
     cases (rp_db (post (route_delete_case cid)))
     = filter (fun c => negb (Nat.eqb (c_id c) cid)) (cases db)
     /\ rp_response (post (route_delete_case cid)) = redirect url_index) /\
  (forall n e, first (users_by_id db uid) <> None ->
     form_get f "name" = Some n -> form_get f "email" = Some e ->
     users (rp_db (post (route_user_page uid)))
     = map (edited_user uid (Some n) (form_get f "last_name") (Some e))
           (users db)
     /\ rp_response (post (route_user_page uid)) = redirect (url_user_page uid)) /\
  (forall t ct, first (cases_by_id db cid) <> None ->
     form_get f "title" = Some t -> form_get f "content" = Some ct ->
     cases (rp_db (post (route_case_page cid)))
     = map (edited_case cid (Some t) (form_get f "description") (Some ct))
           (cases db)
     /\ rp_response (post (route_case_page cid)) = redirect (url_case_page cid)).
Proof.
  intros Hcu get post home boss staff. subst get post home boss staff.
  destruct (load_user_some db k cu Hcu) as [_ Hk].
  repeat match goal with |- _ /\ _ => split end.
  - intros r _. apply get_stores_nothing.
  - run_view. rewrite Hcu. reflexivity.
  - run_view. rewrite Hcu. reflexivity.
  - run_view. rewrite Hcu. reflexivity.
  - run_view. rewrite Hcu. cbn -[role_in].
    destruct (role_in (u_role cu) [DETECTIVE_ROLE; BOSS_ROLE]); reflexivity.
  - run_view. rewrite Hcu. cbn -[role_in].
    destruct (first (users_by_id db uid)) as [user|] eqn:Hu; [|reflexivity].
    cbn -[role_in]. rewrite Hk, (user_by_id_some db uid user Hu).
    destruct (role_in (u_role cu) [DETECTIVE_ROLE; BOSS_ROLE] || Nat.eqb k uid);
      reflexivity.
  - run_view. rewrite Hcu. cbn.
    destruct (first (cases_by_id db cid)); reflexivity.
  - intros Hb. run_view. rewrite Hcu. cbn -[role_eq]. rewrite Hb. reflexivity.
  - intros Hb. run_view. rewrite Hcu. cbn -[role_eq]. rewrite Hb. reflexivity.
  - intros Hs. run_view. rewrite Hcu. cbn -[role_in]. rewrite Hs. reflexivity.
  - intros Hb case Hc Hother. run_view. rewrite Hcu. cbn -[role_eq].
    rewrite Hc, Hb. cbn.
    rewrite (owner_is_not_actor db cu case) by (rewrite Hk; exact Hother).
    reflexivity.
  - intros Hmiss. apply (delete_user_missing db k uid cu f up Hcu Hmiss).
  - intros Hmiss. run_view. rewrite Hcu. cbn -[role_eq].
    destruct (role_eq (u_role cu) BOSS_ROLE); cbn; [|reflexivity].
    rewrite Hmiss. reflexivity.
  - intros Hb Hmiss. apply (delete_case_missing_boss db k cid cu f up Hcu Hb Hmiss).
  - intros Hb Hstored.
    destruct (first (users_by_id db uid)) as [target|] eqn:Ht; [|congruence].
    rewrite (delete_user_as_boss db k uid cu target f up Hcu Hb Ht).
    split; reflexivity.
  - intros Hb target Ht.
    rewrite (approve_as_boss db k uid cu target f up Hcu Hb Ht).
    cbn [rp_db rp_response]. split; [|reflexivity].
    rewrite (load_user_after_update db (cases db)
               (fun u => if Nat.eqb (u_id u) uid
                         then user_with_approved true u else u) uid)
      by (intros u; destruct (Nat.eqb (u_id u) uid); reflexivity).
    unfold load_user. rewrite Ht. cbn.
    replace (Nat.eqb (u_id target) uid) with true
      by (symmetry; apply Nat.eqb_eq; exact (user_by_id_some db uid target Ht)).
    reflexivity.
  - intros Hs Htitle Hcontent. run_view. rewrite Hcu. cbn -[role_in].
    rewrite Hs. cbn. rewrite Hk.
    destruct (form_get f "title"); [|congruence].
    destruct (form_get f "content"); [|congruence]. split; reflexivity.
  - intros case Hc Hmay.
    rewrite (delete_case_allowed db k cid cu case f up Hcu Hc)
      by (rewrite Hk; exact Hmay).
    split; reflexivity.
  - intros n e Hstored Hn He.
    destruct (first (users_by_id db uid)) as [target|] eqn:Ht; [|congruence].
    rewrite (user_page_post_reply db k uid cu target f up n e Hcu Ht Hn He).
    split; reflexivity.
  - intros t ct Hstored Ht Hct.
    destruct (first (cases_by_id db cid)) as [case|] eqn:Hc; [|congruence].
    rewrite (case_page_post_reply db k cid cu case f up t ct Hcu Hc Ht Hct).
    split; reflexivity.
Qed.

End Properties.

(** C1. The detective Carol posts the deletion of case 7, which is not
    stored: the view raises [AttributeError] instead of redirecting. *)
Theorem delete_missing_case_as_detective_raises :
  demo_handle demo_db (mkRequest (Some 2) POST (route_delete_case 7) [] true)
  = mkReply demo_db (Some 2) (internal_server_error AttributeError) [].
Proof. reflexivity. Qed.

Lemma edit_missing_target_raises_witness :
  demo_handle demo_db (mkRequest (Some 3) POST (route_user_page 9) [] true)
  = mkReply demo_db (Some 3) (internal_server_error AttributeError) []
  /\
  demo_handle demo_db (mkRequest (Some 3) POST (route_case_page 9) [] true)
  = mkReply demo_db (Some 3) (internal_server_error AttributeError) [].
Proof.
  destruct (@edit_missing_target_raises demo_settings demo_bcrypt
              demo_db 3 9 bob [] true eq_refl) as [Hu Hc].
  split; [apply Hu | apply Hc]; reflexivity.
Defined.

Lemma user_page_reveals_existence_witness :
  let rq := mkRequest (Some 3) GET (route_user_page 2) [] true in
  let without_carol := mkDB [admin; bob] [case1] in
  rp_response (demo_handle demo_db rq) = redirect url_index /\
  rp_response (demo_handle without_carol rq) = abort 404 /\
  rp_response (demo_handle demo_db rq)
  <> rp_response (demo_handle without_carol rq).
Proof.
  apply (@user_page_reveals_existence demo_settings demo_bcrypt
           demo_db (mkDB [admin; bob] [case1]) 3 2 bob bob [] true);
    try reflexivity; [lia | discriminate].
Defined.

(** C8, as worded: the Boss asks for the user-delete route of a stored
    user with GET and is redirected home; no confirmation page is
    rendered, although the actor is authorized and the target exists. *)
Lemma get_on_delete_route_redirects :
  ~ @get_renders_page demo_settings demo_bcrypt.
Proof.
  intros H.
  assert (Huser : first (users_by_id demo_db 2) <> None) by discriminate.
  assert (Hcase : first (cases_by_id demo_db 1) <> None) by discriminate.
  specialize (H demo_db 1 admin 2 1 (route_delete_user 2) [] true eq_refl
                eq_refl Huser Hcase (or_introl eq_refl)).
  discriminate H.
Qed.

(** C3, as worded: a registration with Bob's e-mail and no password field
    ends in the [ValueError] of the hashing call, which runs before the
    e-mail is looked up; the form is not shown again. *)
Lemma duplicate_email_without_password_raises :
  ~ @duplicate_email_rerenders demo_settings demo_bcrypt.
Proof.
  intros H.
  destruct (H demo_db register_bob_again bob (or_introl eq_refl) eq_refl
              eq_refl (or_intror (or_intror (or_introl eq_refl))) eq_refl)
    as [_ [register_type Hresp]].
  discriminate Hresp.
Qed.

(** C6, as worded: a login for an e-mail nobody has is redirected to the
    login page, a login for Bob's e-mail without a password field ends in
    the [TypeError] of the checking call; both fail, and the two responses
    tell whether the e-mail is stored. *)
Lemma login_without_password_is_told_apart :
  ~ @failed_logins_look_alike demo_settings demo_bcrypt.
Proof.
  intros H.
  assert (H1 : @login_refused demo_settings demo_bcrypt demo_db None
                 nobody_login_form true).
  { split; [reflexivity|]. intros uid [].  }
  assert (H2 : @login_refused demo_settings demo_bcrypt demo_db None
                 bob_login_form true).
  { split; [reflexivity|]. intros uid []. }
  specialize (H demo_db None nobody_login_form bob_login_form true H1 H2).
  discriminate H.
Qed.


Lemma mutating_route_convention_witness :
  let get r := demo_handle demo_db (mkRequest (Some 3) GET r [] true) in
  let post r := demo_handle demo_db (mkRequest (Some 3) POST r [] true) in
  let home := mkReply demo_db (Some 3) (redirect url_index) [] in
  let boss_post r := demo_handle demo_db (mkRequest (Some 1) POST r [] true) in
  get (route_delete_user 2) = home /\
  get (route_approve 2) = home /\
  get (route_delete_case 1) = home /\
  post (route_delete_user 2) = home /\
  post (route_approve 2) = home /\
  post route_new_case = home /\
  post (route_delete_case 1) = home /\
  (users (rp_db (boss_post (route_delete_user 2))) = [admin; bob]
   /\ rp_response (boss_post (route_delete_user 2)) = redirect url_users) /\
  (cases (rp_db (boss_post (route_delete_case 1))) = []
   /\ rp_response (boss_post (route_delete_case 1)) = redirect url_index).
Proof.
  pose proof (@mutating_route_convention demo_settings demo_bcrypt
                demo_db 3 2 1 bob [] true eq_refl) as H.
  pose proof (@mutating_route_convention demo_settings demo_bcrypt
                demo_db 1 2 1 admin [] true eq_refl) as B.
  cbv zeta in H, B.
  destruct H as (_ & G1 & G2 & G3 & _ & _ & _ & P1 & P2 & P3 & P4 & _).
  destruct B as (_ & _ & _ & _ & _ & _ & _ & _ & _ & _ & _ & _ & _ & _
                 & D1 & _ & _ & D4 & _).
  assert (Hother : c_uid case1 <> Some 3) by discriminate.
  assert (Hstored : first (users_by_id demo_db 2) <> None) by discriminate.
  exact (conj G1 (conj G2 (conj G3
           (conj (P1 eq_refl) (conj (P2 eq_refl) (conj (P3 eq_refl)
              (conj (P4 eq_refl case1 eq_refl Hother)
                 (conj (D1 eq_refl Hstored)
                       (D4 case1 eq_refl (or_introl eq_refl)))))))))).
Defined.

Lemma role_matrix_witness :
  let denied :=
    demo_handle demo_db
      (mkRequest (Some 3) POST route_new_case
                 [("title", "Case2"); ("content", "Lost dog")] true) in
  let allowed :=
    demo_handle demo_db (mkRequest (Some 1) POST (route_delete_case 1) [] true) in
  let approved := demo_handle with_alice approve_alice in
  (rp_session denied = Some 3 /\
   rp_db denied = demo_db /\ rp_response denied = redirect url_index)
  /\
  (rp_session allowed = Some 1 /\
   (users (rp_db allowed) = users demo_db /\ cases (rp_db allowed) = []) /\
   rp_response allowed = redirect url_index)
  /\
  (rp_session approved = Some 1 /\
   (cases (rp_db approved) = [case1] /\
    users (rp_db approved)
    = [admin; carol; bob;
       mkUser 4 (Some "Alice") (Some "Liddell") (demo_hash "pw-alice")
              (Some "alice@x.com") (Some DETECTIVE_ROLE) (Some "D-42") true]) /\
   rp_response approved = redirect url_approvals).
Proof.
  split; [|split].
  - apply (@role_matrix demo_settings demo_bcrypt create_case demo_db 3 0 bob
             GUEST_ROLE [("title", "Case2"); ("content", "Lost dog")] true
             eq_refl eq_refl (or_introl eq_refl)).
    cbn. split; discriminate.
  - apply (@role_matrix demo_settings demo_bcrypt delete_others_case demo_db
             1 1 admin BOSS_ROLE [] true
             eq_refl eq_refl (or_intror (or_intror eq_refl))).
    exists case1. split; [reflexivity | discriminate].
  - apply (@role_matrix demo_settings demo_bcrypt approve_user with_alice
             1 4 admin BOSS_ROLE [] false
             eq_refl eq_refl (or_intror (or_intror eq_refl))).
    cbn. discriminate.
Defined.

Lemma duplicate_email_registration_witness :
  let rq := mkRequest None POST route_register_guest
                      [("name", "Robert"); ("email", "bob@x.com");
                       ("password", "hunter2")] true in
  rp_db (demo_handle demo_db rq) = demo_db /\
  demo_handle demo_db rq
  = mkReply demo_db None
      (render_template (register_html "register_guest" (Some SAME_EMAIL_ERROR)))
      [].
Proof.
  destruct (@duplicate_email_registration demo_settings demo_bcrypt demo_db
              (mkRequest None POST route_register_guest
                         [("name", "Robert"); ("email", "bob@x.com");
                          ("password", "hunter2")] true)
              bob (or_introl eq_refl)
              (or_intror (or_intror (or_introl eq_refl))) eq_refl)
    as [Hdb Hreply].
  split; [exact Hdb |].
  apply Hreply; [reflexivity | reflexivity |].
  exists (demo_hash "hunter2"). reflexivity.
Defined.

Lemma registered_role_and_approval_witness :
  (exists h, rp_db (demo_handle demo_db register_dave)
             = mkDB (users demo_db
                     ++ [mkUser 4 (Some "Dave") None h (Some "dave@x.com")
                                (Some GUEST_ROLE) None true])
                    (cases demo_db))
  /\
  (exists h, rp_db (demo_handle demo_db register_alice)
             = mkDB (users demo_db
                     ++ [mkUser 4 (Some "Alice") (Some "Liddell") h
                                (Some "alice@x.com") (Some DETECTIVE_ROLE)
                                (Some "D-42") false])
                    (cases demo_db))
  /\
  (u_role alice = Some DETECTIVE_ROLE /\ u_approved alice = false).
Proof.
  pose proof (@registered_role_and_approval demo_settings demo_bcrypt
                demo_db register_dave) as Hd.
  pose proof (@registered_role_and_approval demo_settings demo_bcrypt
                demo_db register_alice) as Ha.
  cbv zeta in Hd, Ha.
  destruct Hd as (Hguest & _ & _ & Hdoes).
  destruct Ha as (_ & Hdet & Hrows & Hdoes').
  assert (Hname : form_get dave_form "name" <> None) by discriminate.
  assert (Hmail : form_get dave_form "email" <> None) by discriminate.
  assert (Hname' : form_get alice_form "name" <> None) by discriminate.
  assert (Hmail' : form_get alice_form "email" <> None) by discriminate.
  assert (Hin : In alice (users (rp_db (demo_handle demo_db register_alice))))
    by (cbn; right; right; right; left; reflexivity).
  assert (Hout : ~ In alice (users demo_db))
    by (cbn; intros [H | [H | [H | []]]]; discriminate H).
  exact (conj
           (Hguest eq_refl eq_refl
              (proj1 (Hdoes (demo_hash "pw-dave") eq_refl eq_refl eq_refl
                            eq_refl Hname Hmail) eq_refl))
           (conj
              (Hdet eq_refl
                 (proj2 (Hdoes' (demo_hash "pw-alice") eq_refl eq_refl eq_refl
                                eq_refl Hname' Hmail') eq_refl))
              (proj2 (Hrows alice Hin Hout) eq_refl))).
Defined.

Lemma approval_notifies_once_witness :
  let rp := demo_handle with_alice approve_alice in
  List.length (filter is_send (rp_log rp)) = 1 /\
  rp_log rp = [ev_send (@approval_message demo_settings alice);
               ev_print settings_warning] /\
  to (@approval_message demo_settings alice) = ["alice@x.com"] /\
  load_user (rp_db rp) 4 = Some (user_with_approved true alice) /\
  (forall u, In u (users (rp_db rp)) -> u_id u = 4 -> u_approved u = true) /\
  rp_response rp = redirect url_approvals /\
  rp_session rp = Some 1.
Proof.
  apply (@approval_notifies_once demo_settings demo_bcrypt with_alice 1 4
           admin alice [] false); reflexivity.
Defined.

Lemma failed_logins_indistinguishable_witness :
  let unknown := mkRequest None POST route_login
                           [("email", "nobody@x.com"); ("password", "x")] true in
  let reply1 := demo_handle demo_db unknown in
  let reply2 := demo_handle with_alice login_alice in
  rp_response reply1 = redirect (url_login false) /\
  rp_response reply2 = rp_response reply1 /\
  rp_log reply2 = rp_log reply1 /\
  rp_log reply1 = [] /\
  rp_db reply1 = demo_db /\ rp_session reply1 = None /\
  rp_db reply2 = with_alice /\ rp_session reply2 = None.
Proof.
  apply (@failed_logins_indistinguishable demo_settings demo_bcrypt
           demo_db with_alice None None
           [("email", "nobody@x.com"); ("password", "x")]
           [("email", "alice@x.com"); ("password", "pw-alice")]
           true true NotFound NotApproved);
    try reflexivity.
  exists alice. repeat split; reflexivity.
Defined.


(** The scenario of the specification: Alice registers, is refused at the
    login, is approved, logs in, files a case and deletes it. *)
Example alice_scenario :
  map (fun st => (rp_response (st_reply st), rp_session (st_reply st),
                  List.length (cases (rp_db (st_reply st)))))
      (demo_trace demo_db
         [register_alice;
          login_alice;
          approve_alice;
          login_alice;
          mkRequest (Some 4) POST route_new_case
                    [("title", "Case2"); ("content", "Lost dog")] true;
          mkRequest (Some 4) POST (route_delete_case 2) [] true])
  = [(redirect (url_login true), None, 1);
     (redirect (url_login false), None, 1);
     (redirect url_approvals, Some 1, 1);
     (redirect url_index, Some 4, 1);
     (redirect url_index, Some 4, 2);
     (redirect url_index, Some 4, 1)].
Proof. reflexivity. Qed.

(** ** The further properties on the concrete installation *)

Lemma demo_db_keys_unique : keys_unique demo_db.
Proof. split; cbn; repeat constructor; cbn; lia. Qed.

Lemma demo_db_complete : complete demo_db.
Proof. split; cbn; repeat constructor; discriminate. Qed.

Lemma keys_stay_unique_witness : keys_unique demo_db /\ keys_unique with_alice.
Proof.
  exact (@keys_stay_unique demo_settings demo_bcrypt [register_alice] demo_db
           (mkStep demo_db register_alice (demo_handle demo_db register_alice))
           demo_db_keys_unique (or_introl eq_refl)).
Defined.

Lemma required_columns_stay_filled_witness : complete with_alice.
Proof.
  exact (@required_columns_stay_filled demo_settings demo_bcrypt
           [register_alice] demo_db
           (mkStep demo_db register_alice (demo_handle demo_db register_alice))
           demo_db_complete (or_introl eq_refl)).
Defined.

Lemma accounts_are_stable_witness :
  ((exists u0, In u0 (users with_alice)
               /\ same_account u0 (user_with_approved true alice))
   \/ (~ In (u_id (user_with_approved true alice))
           (map u_id (users with_alice))
       /\ rq_method approve_alice = POST
       /\ actor with_alice approve_alice = None
       /\ ((rq_route approve_alice = route_register_guest
            /\ u_role (user_with_approved true alice) = Some GUEST_ROLE)
           \/ (rq_route approve_alice = route_register_detective
               /\ u_role (user_with_approved true alice)
                  = Some DETECTIVE_ROLE))))
  /\
  ((exists u0, In u0 (users demo_db) /\ same_account u0 alice)
   \/ (~ In (u_id alice) (map u_id (users demo_db))
       /\ rq_method register_alice = POST
       /\ actor demo_db register_alice = None
       /\ ((rq_route register_alice = route_register_guest
            /\ u_role alice = Some GUEST_ROLE)
           \/ (rq_route register_alice = route_register_detective
               /\ u_role alice = Some DETECTIVE_ROLE)))).
Proof.
  split.
  - apply (@accounts_are_stable demo_settings demo_bcrypt with_alice
             approve_alice (user_with_approved true alice)).
    cbn. right. right. right. left. reflexivity.
  - apply (@accounts_are_stable demo_settings demo_bcrypt demo_db
             register_alice alice).
    cbn. right. right. right. left. reflexivity.
Defined.

Lemma users_leave_only_by_boss_witness :
  let rq := mkRequest (Some 1) POST (route_delete_user 2) [] true in
  (exists u, In u (users (rp_db (demo_handle demo_db rq))) /\ same_account carol u)
  \/ (rq_route rq = route_delete_user (u_id carol)
      /\ rq_method rq = POST /\ acts_as_boss demo_db rq = true).
Proof.
  apply (@users_leave_only_by_boss demo_settings demo_bcrypt demo_db
           (mkRequest (Some 1) POST (route_delete_user 2) [] true) carol).
  cbn. right. left. reflexivity.
Defined.

Lemma cases_leave_only_by_owner_or_boss_witness :
  let rq := mkRequest (Some 2) POST (route_delete_case 1) [] true in
  (exists c, In c (cases (rp_db (demo_handle demo_db rq))) /\ same_file case1 c)
  \/ (rq_route rq = route_delete_case (c_id case1)
      /\ rq_method rq = POST
      /\ exists cu c, actor demo_db rq = Some cu
                      /\ first (cases_by_id demo_db (c_id case1)) = Some c
                      /\ (role_eq (u_role cu) BOSS_ROLE = true
                          \/ c_uid c = Some (u_id cu))).
Proof.
  apply (@cases_leave_only_by_owner_or_boss demo_settings demo_bcrypt demo_db
           (mkRequest (Some 2) POST (route_delete_case 1) [] true) case1).
  cbn. left. reflexivity.
Defined.

Lemma anonymous_is_sent_to_login_witness :
  demo_handle demo_db (mkRequest (Some 9) POST route_new_case case2_form true)
  = mkReply demo_db (Some 9) (redirect (url_login_next route_new_case)) []
  /\
  demo_handle demo_db (mkRequest None POST route_approvals [] true)
  = mkReply demo_db None (redirect (url_login_next route_approvals)) []
  /\
  demo_handle demo_db (mkRequest None POST route_users [] true)
  = mkReply demo_db None (abort 405) [].
Proof.
  split; [|split].
  - apply (@anonymous_is_sent_to_login demo_settings demo_bcrypt demo_db
             (mkRequest (Some 9) POST route_new_case case2_form true));
      reflexivity.
  - apply (@anonymous_is_sent_to_login demo_settings demo_bcrypt demo_db
             (mkRequest None POST route_approvals [] true)); reflexivity.
  - apply (@anonymous_is_sent_to_login demo_settings demo_bcrypt demo_db
             (mkRequest None POST route_users [] true)); reflexivity.
Defined.

Lemma logged_in_is_sent_home_witness :
  demo_handle demo_db (mkRequest (Some 3) POST route_register_detective alice_form true)
  = mkReply demo_db (Some 3) (redirect url_index) [].
Proof.
  apply (@logged_in_is_sent_home demo_settings demo_bcrypt demo_db
           (mkRequest (Some 3) POST route_register_detective alice_form true)
           bob); reflexivity.
Defined.

Lemma get_is_safe_witness :
  let rp := demo_handle demo_db (mkRequest (Some 1) GET (route_delete_user 2) [] true) in
  rp_db rp = demo_db /\ rp_session rp = Some 1 /\ rp_log rp = [].
Proof.
  destruct (@get_is_safe demo_settings demo_bcrypt demo_db (Some 1)
              (route_delete_user 2) [] true) as [Hdb Hrest].
  assert (Hr : route_delete_user 2 <> route_logout) by discriminate.
  exact (conj Hdb (Hrest Hr)).
Defined.

Lemma mail_only_on_boss_approval_witness :
  exists uid target,
    rq_route approve_alice = route_approve uid
    /\ rq_method approve_alice = POST
    /\ acts_as_boss with_alice approve_alice = true
    /\ first (users_by_id with_alice uid) = Some target
    /\ @approval_message demo_settings alice
       = @approval_message demo_settings target.
Proof.
  apply (@mail_only_on_boss_approval demo_settings demo_bcrypt with_alice
           approve_alice (@approval_message demo_settings alice)).
  cbn. left. reflexivity.
Defined.

Lemma guest_can_log_in_at_once_witness :
  let reg := demo_handle demo_db (mkRequest None POST route_register_guest dave_form true) in
  rp_session reg = None /\ rp_log reg = [] /\
  demo_handle (rp_db reg) (mkRequest None POST route_login dave_form true)
  = mkReply (rp_db reg) (Some 4) (redirect url_index) [ev_login_user 4].
Proof.
  apply (@guest_can_log_in_at_once demo_settings demo_bcrypt demo_db None None
           dave_form dave_form true true (demo_hash "pw-dave"));
    try reflexivity; discriminate.
Defined.

Lemma detective_waits_on_pending_list_witness :
  demo_handle with_alice login_alice
  = mkReply with_alice None (redirect (url_login false)) []
  /\
  exists pending_users,
    rp_response (demo_handle with_alice
                   (mkRequest (Some 1) GET route_approvals [] true))
    = render_template (users_html pending_users true)
    /\ In alice pending_users.
Proof.
  apply (@detective_waits_on_pending_list demo_settings demo_bcrypt demo_db
           None None alice_form
           [("email", "alice@x.com"); ("password", "pw-alice")]
           true true true (demo_hash "pw-alice") 1 admin []);
    try reflexivity; discriminate.
Defined.

Lemma approved_leaves_pending_list_witness :
  exists pending_users,
    rp_response (demo_handle with_alice_approved
                   (mkRequest (Some 1) GET route_approvals [] true))
    = render_template (users_html pending_users true)
    /\ (forall u, In u pending_users ->
                  u_id u <> 4 /\ In u (users with_alice) /\ u_approved u = false).
Proof.
  apply (@approved_leaves_pending_list demo_settings demo_bcrypt with_alice
           1 4 admin alice [] [] false true); reflexivity.
Defined.

Lemma new_case_can_be_read_witness :
  let created := demo_handle demo_db (mkRequest (Some 2) POST route_new_case case2_form true) in
  rp_db created = mkDB (users demo_db) [case1; case2] /\
  rp_response (demo_handle (rp_db created)
                 (mkRequest (Some 3) GET (route_case_page 2) [] true))
  = render_template (case_page_html case2) /\
  rp_response (demo_handle (rp_db created) (mkRequest (Some 3) GET route_index [] true))
  = render_template (index_html [case1; case2]).
Proof.
  apply (@new_case_can_be_read demo_settings demo_bcrypt demo_db 2 3 carol bob
           case2_form [] true true); try reflexivity; discriminate.
Defined.

Lemma deleted_case_is_gone_witness :
  let db1 := rp_db (demo_handle demo_db
                      (mkRequest (Some 2) POST (route_delete_case 1) [] true)) in
  rp_response (demo_handle db1 (mkRequest (Some 3) GET (route_case_page 1) [] true))
  = abort 404 /\
  users db1 = users demo_db /\
  (forall c1, c_id c1 <> 1 -> (In c1 (cases db1) <-> In c1 (cases demo_db))) /\
  (forall c1, In c1 (cases db1) -> c_id c1 <> 1).
Proof.
  apply (@deleted_case_is_gone demo_settings demo_bcrypt demo_db 2 3 1 carol bob
           case1 [] [] true true); try reflexivity.
  right. reflexivity.
Defined.

Lemma deleted_user_is_logged_out_witness :
  let db1 := rp_db (demo_handle demo_db
                      (mkRequest (Some 1) POST (route_delete_user 2) [] true)) in
  load_user db1 2 = None /\
  demo_handle db1 (mkRequest (Some 2) GET route_index [] true)
  = mkReply db1 (Some 2) (redirect (url_login_next route_index)) [] /\
  map (fun c => (c_id c, c_title c, c_description c, c_content c)) (cases db1)
  = map (fun c => (c_id c, c_title c, c_description c, c_content c))
        (cases demo_db).
Proof.
  apply (@deleted_user_is_logged_out demo_settings demo_bcrypt demo_db 1 2
           admin carol [] [] true true); reflexivity.
Defined.

Lemma approving_again_sends_again_witness :
  let rp := demo_handle demo_db (mkRequest (Some 1) POST (route_approve 2) [] true) in
  rp_db rp = demo_db /\
  filter is_send (rp_log rp) = [ev_send (@approval_message demo_settings carol)].
Proof.
  apply (@approving_again_sends_again demo_settings demo_bcrypt demo_db 1 2
           admin carol [] true); try reflexivity.
  cbn. intros u [<- | [<- | [<- | []]]] Hid; first [reflexivity | discriminate Hid].
Defined.

Lemma any_actor_edits_any_profile_witness :
  let f := [("name", "Root"); ("email", "bob@evil.example")] in
  let rp := demo_handle demo_db (mkRequest (Some 3) POST (route_user_page 1) f true) in
  rp_response rp = redirect (url_user_page 1) /\
  load_user (rp_db rp) 1
  = Some (mkUser 1 (Some "Root") None (demo_hash "1234")
                 (Some "bob@evil.example") (Some BOSS_ROLE) None true) /\
  (forall k1, k1 <> 1 -> load_user (rp_db rp) k1 = load_user demo_db k1) /\
  cases (rp_db rp) = cases demo_db /\
  rp_session rp = Some 3 /\ rp_log rp = [].
Proof.
  apply (@any_actor_edits_any_profile demo_settings demo_bcrypt demo_db 3 1
           bob admin [("name", "Root"); ("email", "bob@evil.example")] true
           "Root" "bob@evil.example"); reflexivity.
Defined.

Lemma edit_can_duplicate_email_witness :
  let f := [("name", "Carol"); ("email", "admin@email.com")] in
  let db1 := rp_db (demo_handle demo_db
                      (mkRequest (Some 3) POST (route_user_page 2) f true)) in
  exists edited,
    load_user db1 2 = Some edited /\ u_email edited = Some "admin@email.com" /\
    load_user db1 (u_id admin) = Some admin.
Proof.
  apply (@edit_can_duplicate_email demo_settings demo_bcrypt demo_db 3 2
           bob carol admin [("name", "Carol"); ("email", "admin@email.com")]
           true "Carol" "admin@email.com"); try reflexivity.
  discriminate.
Defined.

Lemma any_actor_edits_any_case_witness :
  let f := [("title", "Closed"); ("content", "Nothing to see")] in
  let rp := demo_handle demo_db (mkRequest (Some 3) POST (route_case_page 1) f true) in
  let edited := mkCase 1 (Some 2) (Some "Closed") None (Some "Nothing to see") in
  rp_response rp = redirect (url_case_page 1) /\
  users (rp_db rp) = users demo_db /\
  cases (rp_db rp)
  = map (edited_case 1 (Some "Closed") None (Some "Nothing to see")) (cases demo_db) /\
  rp_response (demo_handle (rp_db rp) (mkRequest (Some 3) GET (route_case_page 1) [] true))
  = render_template (case_page_html edited).
Proof.
  apply (@any_actor_edits_any_case demo_settings demo_bcrypt demo_db 3 1 bob
           case1 [("title", "Closed"); ("content", "Nothing to see")] []
           true true "Closed" "Nothing to see"); reflexivity.
Defined.

Lemma edit_without_required_field_raises_witness :
  demo_handle demo_db
    (mkRequest (Some 3) POST (route_user_page 3) [("name", "Bobby")] true)
  = mkReply demo_db (Some 3) (internal_server_error IntegrityError) []
  /\
  demo_handle demo_db
    (mkRequest (Some 3) POST (route_case_page 1) [("title", "Closed")] true)
  = mkReply demo_db (Some 3) (internal_server_error IntegrityError) [].
Proof.
  split.
  - apply (proj1 (@edit_without_required_field_raises demo_settings demo_bcrypt
                    demo_db 3 3 bob [("name", "Bobby")] true eq_refl));
      [discriminate | right; reflexivity].
  - apply (proj2 (@edit_without_required_field_raises demo_settings demo_bcrypt
                    demo_db 3 1 bob [("title", "Closed")] true eq_refl));
      [discriminate | right; reflexivity].
Defined.

Lemma create_without_required_field_raises_witness :
  demo_handle demo_db
    (mkRequest None POST route_register_guest
               [("email", "dave@x.com"); ("password", "pw-dave")] true)
  = mkReply demo_db None (internal_server_error IntegrityError) []
  /\
  demo_handle demo_db
    (mkRequest (Some 2) POST route_new_case [("title", "Case2")] true)
  = mkReply demo_db (Some 2) (internal_server_error IntegrityError) [].
Proof.
  split.
  - apply (proj1 (@create_without_required_field_raises demo_settings
                    demo_bcrypt demo_db None
                    [("email", "dave@x.com"); ("password", "pw-dave")] true)
                 route_register_guest (demo_hash "pw-dave"));
      try reflexivity; [left | left]; reflexivity.
  - apply (proj2 (@create_without_required_field_raises demo_settings
                    demo_bcrypt demo_db (Some 2) [("title", "Case2")] true)
                 carol); try reflexivity.
    right. reflexivity.
Defined.

Lemma bcrypt_errors_are_fatal_witness :
  demo_handle demo_db
    (mkRequest None POST route_register_guest
               [("name", "Robert"); ("email", "bob@x.com")] true)
  = mkReply demo_db None (internal_server_error ValueError) []
  /\
  demo_handle demo_db
    (mkRequest None POST route_login [("email", "bob@x.com")] true)
  = mkReply demo_db None (internal_server_error TypeError) [].
Proof.
  split.
  - apply (proj1 (@bcrypt_errors_are_fatal demo_settings demo_bcrypt demo_db
                    None [("name", "Robert"); ("email", "bob@x.com")] true
                    ValueError) route_register_guest);
      try reflexivity. left. reflexivity.
  - apply (proj2 (@bcrypt_errors_are_fatal demo_settings demo_bcrypt demo_db
                    None [("email", "bob@x.com")] true TypeError) bob);
      reflexivity.
Defined.

Lemma registration_keeps_emails_unique_witness :
  NoDup (map u_email (users with_alice)).
Proof.
  apply (@registration_keeps_emails_unique demo_settings demo_bcrypt demo_db
           register_alice (or_intror eq_refl)).
  cbn. repeat constructor; cbn; intuition discriminate.
Defined.

Lemma list_pages_by_role_witness :
  let get r := demo_handle with_alice (mkRequest (Some 1) GET r [] true) in
  get route_index
  = mkReply with_alice (Some 1) (render_template (index_html [case1])) [] /\
  get route_users
  = mkReply with_alice (Some 1)
      (render_template (users_html [admin; carol; bob; alice] false)) [] /\
  get route_approvals
  = mkReply with_alice (Some 1) (render_template (users_html [alice] true)) [].
Proof.
  apply (@list_pages_by_role demo_settings demo_bcrypt with_alice 1 admin [] true).
  reflexivity.
Defined.

(** A POST to the pending list is run by the user page view, which finds
    no user for the text [pending]. *)
Example post_to_pending_list_runs_user_page :
  demo_handle demo_db (mkRequest (Some 1) POST route_approvals [] true)
  = mkReply demo_db (Some 1) (internal_server_error AttributeError) [].
Proof. reflexivity. Qed.
